(** * ChargePoint-Notifier: the polling loop of [index.js]

    A shallow embedding of the second (current) version of [index.js]:
    the snapshot mapping of [getChargePointStationQueueDetail], the two
    [forEach] bodies of [pollChargePoint] that diff a snapshot against the
    per-outlet occupants and send the Slack messages, the day and hour gate,
    the (re)authentication, and the [setTimeout] chain that keeps the
    program polling.

    Conventions of the model.
    - A JavaScript number is a rational or [NaN]: every number of the program
      is the result of [parseInt], such a result divided by 1000, a sum of
      those, or a constant. The rounding of IEEE doubles is outside the model.
    - The module-level objects [chargingUsers] and [onHoldUsers] are finite
      maps from property keys: a key that is absent and a key that holds
      [null] behave alike in the program, which reads the two objects only
      through [!chargingUsers[outlet]]. Their keys are the outlet numbers
      that the station reports.
    - [slackUserIds] is a plain object keyed by names that subscribers
      choose: its own entries, every one a string, as the parsing of lines
      365-371 leaves them, and behind them the members of
      [Object.prototype]. It does not change after the parsing.
    - [sendSlackMessage] logs its text or posts it and never throws; a call
      is kept as the template that produced the text with the values that
      fill it, next to the outlet key and the occupant name of the
      [forEach] iteration that made it.
    - The constants read from [process.env] are strings when the variable is
      set, and the numbers of lines 191-195 when it is not. *)

From Stdlib Require Import Ascii QArith Qround Lqa.
From stdpp Require Import gmap strings list fin_maps pretty.

Local Open Scope string_scope.
Local Open Scope list_scope.

(** ** JavaScript values *)

(** Numbers. *)
Inductive num : Type :=
| NaN
| Fin (q : Q).

Definition num_add (a b : num) : num :=
  match a, b with
  | Fin x, Fin y => Fin (x + y)
  | _, _ => NaN
  end.

Definition num_mul (a b : num) : num :=
  match a, b with
  | Fin x, Fin y => Fin (x * y)
  | _, _ => NaN
  end.

(** [a / k] for a constant [k] that is not zero. *)
Definition num_div (a : num) (k : Q) : num :=
  match a with
  | Fin x => Fin (x / k)
  | NaN => NaN
  end.

(** [a <= b] and [a < b] on numbers: false as soon as one side is [NaN]. *)
Definition num_le (a b : num) : bool :=
  match a, b with
  | Fin x, Fin y => Qle_bool x y
  | _, _ => false
  end.

Definition num_lt (a b : num) : bool :=
  match a, b with
  | Fin x, Fin y => negb (Qle_bool y x)
  | _, _ => false
  end.

Definition num_eq (a b : num) : bool :=
  match a, b with
  | Fin x, Fin y => Qeq_bool x y
  | _, _ => false
  end.

Definition num_of_Z (z : Z) : num := Fin (inject_Z z).

(** The primitive values a JSON body or an environment variable can put in
    a variable of the program, and [undefined] for a property that is
    missing. *)
Inductive JsVal : Type :=
| JUndefined
| JNull
| JBool (b : bool)
| JNum (n : num)
| JStr (s : string).

(** [!v] is [negb (truthy v)]. *)
Definition truthy (v : JsVal) : bool :=
  match v with
  | JUndefined | JNull => false
  | JBool b => b
  | JNum NaN => false
  | JNum (Fin q) => negb (Qeq_bool q 0)
  | JStr s => negb (String.eqb s "")
  end.

(** [a === b]. *)
Definition strict_eq (a b : JsVal) : bool :=
  match a, b with
  | JUndefined, JUndefined => true
  | JNull, JNull => true
  | JBool x, JBool y => Bool.eqb x y
  | JNum x, JNum y => num_eq x y
  | JStr x, JStr y => String.eqb x y
  | _, _ => false
  end.

(** The functions of the language that the program calls, or that its
    operators call, and that read or print text. They are the same
    functions throughout a run. *)
Class Builtins : Type := {
  (** [Number::toString], the [ToString] of a number *)
  NumberToString : num -> string;
  (** [StringToNumber], the [ToNumber] of a string *)
  StringToNumber : string -> num;
  (** the global [parseInt] with one argument *)
  parseInt : JsVal -> num;
  (** [Date.parse] *)
  DateParse : string -> num
}.

Section JsOperators.
Context `{Builtins}.

Definition ToNumber (v : JsVal) : num :=
  match v with
  | JUndefined => NaN
  | JNull => num_of_Z 0
  | JBool true => num_of_Z 1
  | JBool false => num_of_Z 0
  | JNum n => n
  | JStr s => StringToNumber s
  end.

Definition ToString (v : JsVal) : string :=
  match v with
  | JUndefined => "undefined"
  | JNull => "null"
  | JBool true => "true"
  | JBool false => "false"
  | JNum n => NumberToString n
  | JStr s => s
  end.

(** The key under which [obj[v]] reads and writes. *)
Definition ToPropertyKey (v : JsVal) : string := ToString v.

(** [a + b]: concatenation as soon as one side is a string. *)
Definition js_add (a b : JsVal) : JsVal :=
  match a, b with
  | JStr _, _ | _, JStr _ => JStr (String.append (ToString a) (ToString b))
  | _, _ => JNum (num_add (ToNumber a) (ToNumber b))
  end.

(** [a <= b] and [a < b], [a > b] where the left side is a number: the
    right side is converted to a number. *)
Definition js_le (a : num) (b : JsVal) : bool := num_le a (ToNumber b).
Definition js_lt (a : num) (b : JsVal) : bool := num_lt a (ToNumber b).
Definition js_gt (a : num) (b : JsVal) : bool := num_lt (ToNumber b) a.

(** The time value of [new Date(v)]. *)
Definition new_Date (v : JsVal) : num :=
  match v with
  | JStr s => DateParse s
  | _ => ToNumber v
  end.
End JsOperators.

(** ** Configuration (lines 181-200) *)

(** [process.env.X || d]: the variable, a string, when it is set and not
    empty, the default otherwise. *)
Definition env_or (x : option string) (d : Z) : JsVal :=
  match x with
  | Some s => if String.eqb s "" then JNum (num_of_Z d) else JStr s
  | None => JNum (num_of_Z d)
  end.

Record ProcessEnv : Type := {
  CPN_POLLING_DELAY : option string;
  CPN_AUTH_DELAY : option string;
  CPN_WARNING_OFFSET : option string;
  CPN_WORKING_START_TIME : option string;
  CPN_WORKING_STOP_TIME : option string
}.

Definition pollingDelay (env : ProcessEnv) : JsVal :=
  env_or (CPN_POLLING_DELAY env) (60 * 1000).
Definition authDelay (env : ProcessEnv) : JsVal :=
  env_or (CPN_AUTH_DELAY env) (30 * 60 * 1000).
Definition exitWarningOffset (env : ProcessEnv) : JsVal :=
  env_or (CPN_WARNING_OFFSET env) (5 * 60).
Definition workingStarTime (env : ProcessEnv) : JsVal :=
  env_or (CPN_WORKING_START_TIME env) 8.
Definition workingStopTime (env : ProcessEnv) : JsVal :=
  env_or (CPN_WORKING_STOP_TIME env) 18.

Definition sundayDayOfWeek : Z := 1.
Definition saturdayDayOfWeek : Z := 6.
Definition weekendSleepTime : Z := 6 * 60 * 60 * 1000.
Definition afterHoursSleepTime : Z := 60 * 60 * 1000.

(** No variable of the environment set: every constant has its default. *)
Definition default_env : ProcessEnv :=
  {| CPN_POLLING_DELAY := None; CPN_AUTH_DELAY := None;
     CPN_WARNING_OFFSET := None; CPN_WORKING_START_TIME := None;
     CPN_WORKING_STOP_TIME := None |}.

(** ** A plain object used as a map (lines 204 and 8-10)

    A read of [slackUserIds[key]] finds the entry that the object holds
    under [key] and, when it holds none, the member that [Object.prototype]
    has under that name. The program uses what it reads in two ways only,
    [!== undefined] and inside a template literal, so a value is kept as the
    text that a template literal prints for it. *)

(** The members of [Object.prototype] on Node, each with its text. *)
Definition Object_prototype : gmap string string :=
  list_to_map
    [("constructor", "function Object() { [native code] }");
     ("__defineGetter__", "function __defineGetter__() { [native code] }");
     ("__defineSetter__", "function __defineSetter__() { [native code] }");
     ("hasOwnProperty", "function hasOwnProperty() { [native code] }");
     ("__lookupGetter__", "function __lookupGetter__() { [native code] }");
     ("__lookupSetter__", "function __lookupSetter__() { [native code] }");
     ("isPrototypeOf", "function isPrototypeOf() { [native code] }");
     ("propertyIsEnumerable", "function propertyIsEnumerable() { [native code] }");
     ("toString", "function toString() { [native code] }");
     ("valueOf", "function valueOf() { [native code] }");
     ("__proto__", "[object Object]");
     ("toLocaleString", "function toLocaleString() { [native code] }")].

(** [obj[key]], with [None] for [undefined]. *)
Definition plain_get (obj : gmap string string) (key : string) : option string :=
  match obj !! key with
  | Some value => Some value
  | None => Object_prototype !! key
  end.

(** [obj[key] = value] for a string [value]: a new entry, but for the key
    [__proto__], whose setter in [Object.prototype] ignores a string. *)
Definition plain_set (obj : gmap string string) (key value : string)
  : gmap string string :=
  if String.eqb key "__proto__" then obj else <[key := value]> obj.

(** ** Data model *)

(** An entry of [data.chargingUsers] in the body of
    [/community/getStationQueueDetail], with the fields the program reads. *)
Module RemoteChargingUser.
Record t : Type := mk {
  subscriberId : JsVal;
  subscriberEvatarName : JsVal;
  subscriberQueueState : JsVal;
  pluginEpochTime : JsVal;
  outletNumber : JsVal
}.
End RemoteChargingUser.

(** An entry of [data.onHoldUsers]. *)
Module RemoteOnHoldUser.
Record t : Type := mk {
  subscriberId : JsVal;
  subscriberEvatarName : JsVal;
  portQueueSubState : JsVal;
  outletNumber : JsVal
}.
End RemoteOnHoldUser.

(** [response.data.response.message]. *)
Module Message.
Record t : Type := mk {
  maxChargingTime : JsVal;
  currTime : JsVal;
  chargingUsers : list RemoteChargingUser.t;
  onHoldUsers : list RemoteOnHoldUser.t
}.
End Message.

(** The objects built in lines 252-258 and kept in [chargingUsers]. *)
Module ChargingUser.
Record t : Type := mk {
  id : JsVal;
  name : JsVal;
  status : JsVal;
  startTime : num;
  outlet : JsVal;
  exitNotified : bool
}.

(** [user.exitNotified = true] *)
Definition set_exitNotified (u : t) : t :=
  mk (id u) (name u) (status u) (startTime u) (outlet u) true.
End ChargingUser.

(** The objects built in lines 260-265 and kept in [onHoldUsers]. *)
Module OnHoldUser.
Record t : Type := mk {
  id : JsVal;
  name : JsVal;
  status : JsVal;
  outlet : JsVal;
  waitingNotified : bool
}.

(** [user.waitingNotified = true] *)
Definition set_waitingNotified (u : t) : t :=
  mk (id u) (name u) (status u) (outlet u) true.
End OnHoldUser.

(** The object returned by [getChargePointStationQueueDetail]. *)
Module StationQueueDetail.
Record t : Type := mk {
  maxChargingTime : num;
  currTime : num;
  chargingUsers : list ChargingUser.t;
  onHoldUsers : list OnHoldUser.t
}.
End StationQueueDetail.

(** The three message templates of [pollChargePoint]. *)
Inductive Text : Type :=
| HasStartedCharging (name : JsVal) (endTime : num)   (* line 324 *)
| TimeAlmostUp (recipient : string)                   (* line 337 *)
| YourTurn (recipient : string).                      (* line 355 *)

(** A call of [sendSlackMessage], with the outlet key and the occupant name
    of the iteration that made it. *)
Record Sent : Type := mkSent {
  at_outlet : string;
  for_name : JsVal;
  text : Text
}.

Definition is_started (m : Sent) : bool :=
  match text m with HasStartedCharging _ _ => true | _ => false end.
Definition is_almost_up (m : Sent) : bool :=
  match text m with TimeAlmostUp _ => true | _ => false end.
Definition is_your_turn (m : Sent) : bool :=
  match text m with YourTurn _ => true | _ => false end.

(** The module-level variables of lines 202-206. *)
Record State : Type := mkState {
  chargePointToken : JsVal;
  lastAuth : option num;
  chargingUsers : gmap string ChargingUser.t;
  onHoldUsers : gmap string OnHoldUser.t
}.

Definition initial_state : State :=
  {| chargePointToken := JUndefined; lastAuth := None;
     chargingUsers := ∅; onHoldUsers := ∅ |}.

(** [array.forEach(f)] where [f] updates a store and sends messages. *)
Fixpoint forEach {S A : Type} (f : S -> A -> S * list Sent) (s : S) (l : list A)
  : S * list Sent :=
  match l with
  | [] => (s, [])
  | x :: l' =>
      let '(s1, out1) := f s x in
      let '(s2, out2) := forEach f s1 l' in
      (s2, out1 ++ out2)
  end.

Section Program.
Context `{Builtins}.

(** ** getChargePointStationQueueDetail (lines 249-267) *)

Definition toChargingUser (user : RemoteChargingUser.t) : ChargingUser.t :=
  {| ChargingUser.id := RemoteChargingUser.subscriberId user;
     ChargingUser.name := RemoteChargingUser.subscriberEvatarName user;
     ChargingUser.status := RemoteChargingUser.subscriberQueueState user;
     ChargingUser.startTime :=
       num_div (parseInt (RemoteChargingUser.pluginEpochTime user)) 1000;
     ChargingUser.outlet := RemoteChargingUser.outletNumber user;
     ChargingUser.exitNotified := false |}.

Definition toOnHoldUser (user : RemoteOnHoldUser.t) : OnHoldUser.t :=
  {| OnHoldUser.id := RemoteOnHoldUser.subscriberId user;
     OnHoldUser.name := RemoteOnHoldUser.subscriberEvatarName user;
     OnHoldUser.status := RemoteOnHoldUser.portQueueSubState user;
     OnHoldUser.outlet := RemoteOnHoldUser.outletNumber user;
     OnHoldUser.waitingNotified := false |}.

(** [user.id !== undefined] *)
Definition id_defined (user : ChargingUser.t) : bool :=
  negb (strict_eq (ChargingUser.id user) JUndefined).

Definition stationQueueDetail (data : Message.t) : StationQueueDetail.t :=
  {| StationQueueDetail.maxChargingTime := parseInt (Message.maxChargingTime data);
     StationQueueDetail.currTime := parseInt (Message.currTime data);
     StationQueueDetail.chargingUsers :=
       List.filter id_defined (List.map toChargingUser (Message.chargingUsers data));
     StationQueueDetail.onHoldUsers :=
       List.map toOnHoldUser (Message.onHoldUsers data) |}.

(** The request of line 237 fails with an error or yields a message; a
    body in which a property chain or one of the two arrays is missing
    throws in lines 247-266 and counts as a failed request. *)
Definition getChargePointStationQueueDetail (response : string + Message.t)
  : string + StationQueueDetail.t :=
  match response with
  | inl error => inl error
  | inr data => inr (stationQueueDetail data)
  end.

(** ** The two [forEach] bodies of pollChargePoint (lines 313-358) *)

Variable env : ProcessEnv.
Variable slackUserIds : gmap string string.

(** Line 317: the occupant of the outlet once the [if] has run. *)
Definition charging_changed (stored : option ChargingUser.t) (user : ChargingUser.t)
  : bool :=
  match stored with
  | None => true
  | Some c => negb (strict_eq (ChargingUser.id c) (ChargingUser.id user))
  end.

Definition charging_occupant (stored : option ChargingUser.t) (user : ChargingUser.t)
  : ChargingUser.t :=
  match stored with
  | None => user
  | Some c => if charging_changed stored user then user else c
  end.

(** Lines 333-336. *)
Definition exit_due (maxChargingTime currTime : num) (c : ChargingUser.t) : bool :=
  strict_eq (ChargingUser.status c) (JStr "CHARGING")
  && bool_decide (is_Some (plain_get slackUserIds (ToPropertyKey (ChargingUser.name c))))
  && js_le (num_add (ChargingUser.startTime c) maxChargingTime)
           (js_add (JNum currTime) (exitWarningOffset env))
  && negb (ChargingUser.exitNotified c).

(** [`<@${slackUserIds[name]}>`]: what the read finds, and [undefined]
    printed when it finds nothing. *)
Definition recipient (name : JsVal) : string :=
  default "undefined" (plain_get slackUserIds (ToPropertyKey name)).

(** The body of the first [forEach] (lines 314-339). The slot of the
    outlet ends up holding the occupant [c] of line 318, with the flag set
    if line 338 ran; writing an occupant that was there already leaves the
    map as it is. *)
Definition processChargingUser (firstRun : JsVal) (maxChargingTime currTime : num)
    (store : gmap string ChargingUser.t) (user : ChargingUser.t)
  : gmap string ChargingUser.t * list Sent :=
  let outlet := ToPropertyKey (ChargingUser.outlet user) in
  let stored := store !! outlet in
  let c := charging_occupant stored user in
  let started :=
    if charging_changed stored user && negb (truthy firstRun)
    then [mkSent outlet (ChargingUser.name c)
            (HasStartedCharging (ChargingUser.name c)
               (num_mul (num_add (ChargingUser.startTime c) maxChargingTime)
                        (num_of_Z 1000)))]
    else [] in
  if exit_due maxChargingTime currTime c
  then (<[outlet := ChargingUser.set_exitNotified c]> store,
        started ++ [mkSent outlet (ChargingUser.name c)
                      (TimeAlmostUp (recipient (ChargingUser.name c)))])
  else (<[outlet := c]> store, started).

(** Line 347. *)
Definition onHold_changed (stored : option OnHoldUser.t) (user : OnHoldUser.t) : bool :=
  match stored with
  | None => true
  | Some c => negb (strict_eq (OnHoldUser.id c) (OnHoldUser.id user))
  end.

Definition onHold_occupant (stored : option OnHoldUser.t) (user : OnHoldUser.t)
  : OnHoldUser.t :=
  match stored with
  | None => user
  | Some c => if onHold_changed stored user then user else c
  end.

(** Lines 352-354. *)
Definition turn_due (c : OnHoldUser.t) : bool :=
  strict_eq (OnHoldUser.status c) (JStr "ACCEPT_PENDING")
  && bool_decide (is_Some (plain_get slackUserIds (ToPropertyKey (OnHoldUser.name c))))
  && negb (OnHoldUser.waitingNotified c).

(** The body of the second [forEach] (lines 344-357). *)
Definition processOnHoldUser (store : gmap string OnHoldUser.t) (user : OnHoldUser.t)
  : gmap string OnHoldUser.t * list Sent :=
  let outlet := ToPropertyKey (OnHoldUser.outlet user) in
  let c := onHold_occupant (store !! outlet) user in
  if turn_due c
  then (<[outlet := OnHoldUser.set_waitingNotified c]> store,
        [mkSent outlet (OnHoldUser.name c) (YourTurn (recipient (OnHoldUser.name c)))])
  else (<[outlet := c]> store, []).

(** Lines 309-358: both loops over one snapshot. *)
Definition processSnapshot (firstRun : JsVal) (st : State) (d : StationQueueDetail.t)
  : State * list Sent :=
  let maxChargingTime := StationQueueDetail.maxChargingTime d in
  let currTime := StationQueueDetail.currTime d in
  let '(charging, out1) :=
    forEach (processChargingUser firstRun maxChargingTime currTime)
            (chargingUsers st) (StationQueueDetail.chargingUsers d) in
  let '(onHold, out2) :=
    forEach processOnHoldUser (onHoldUsers st) (StationQueueDetail.onHoldUsers d) in
  ({| chargePointToken := chargePointToken st; lastAuth := lastAuth st;
      chargingUsers := charging; onHoldUsers := onHold |},
   out1 ++ out2).
End Program.

(** ** Dates *)

Inductive Weekday : Type :=
| Sunday | Monday | Tuesday | Wednesday | Thursday | Friday | Saturday.

(** The numbering of [Date.prototype.getDay]: 0 is Sunday, 6 is Saturday. *)
Definition WeekDay (d : Weekday) : Z :=
  match d with
  | Sunday => 0 | Monday => 1 | Tuesday => 2 | Wednesday => 3
  | Thursday => 4 | Friday => 5 | Saturday => 6
  end.

(** A [Date] object read in the local time zone: its time value, the day of
    the week and the hour of the day. *)
Record Date : Type := mkDate {
  getTime : num;
  weekday : Weekday;
  getHours : Z
}.

Definition getDay (d : Date) : Z := WeekDay (weekday d).

(** The weekend of the specification: Saturday and Sunday. *)
Definition is_weekend (d : Weekday) : bool :=
  match d with Saturday | Sunday => true | _ => false end.

(** ** One invocation of pollChargePoint *)

(** What the outside supplies to one invocation: the clock, and what the two
    remote calls do if they are made. *)
Record World : Type := mkWorld {
  dateNow : Date;                            (* [new Date()], line 292 *)
  authCheckTime : num;                       (* [new Date()], line 302 *)
  tokenResponse : string + JsVal;            (* line 303 *)
  authTime : num;                            (* [new Date()], line 304 *)
  queueDetailResponse : string + Message.t   (* line 308 *)
}.

(** [setTimeout(pollChargePoint, delay)]: the callback is always
    [pollChargePoint]; a timer keeps the arguments it will be called with. *)
Record Timer : Type := mkTimer {
  callback_args : list JsVal;
  delay : JsVal
}.

(** The first parameter of a function called with [args]. *)
Definition first_param (args : list JsVal) : JsVal := List.hd JUndefined args.

(** How the promise of an [async] function settles. *)
Inductive Settled : Type :=
| Resolved
| Rejected (error : string).

Inductive Gate : Type :=
| WeekendSleep
| AfterHoursSleep
| Polling.

Record Outcome : Type := mkOutcome {
  gate_taken : Gate;
  state_after : State;
  sent : list Sent;
  timers : list Timer;
  settled : Settled
}.

Section Poll.
Context `{Builtins}.
Variable env : ProcessEnv.
Variable slackUserIds : gmap string string.

(** Lines 293-299. *)
Definition gate (now : Date) : Gate :=
  if (getDay now =? sundayDayOfWeek)%Z || (getDay now =? saturdayDayOfWeek)%Z
  then WeekendSleep
  else if js_lt (num_of_Z (getHours now)) (workingStarTime env)
          || js_gt (num_of_Z (getHours now)) (workingStopTime env)
  then AfterHoursSleep
  else Polling.

(** The condition of line 302; [lastAuth.getTime()] throws a [TypeError]
    when [lastAuth] is still [undefined]. *)
Definition must_authenticate (st : State) (now : num) : string + bool :=
  if negb (truthy (chargePointToken st)) then inr true
  else match lastAuth st with
       | None => inl "TypeError"
       | Some t => inr (num_le (new_Date (js_add (JNum t) (authDelay env))) now)
       end.

(** Lines 302-305. *)
Definition authenticate (st : State) (w : World) : string + State :=
  match must_authenticate st (authCheckTime w) with
  | inl error => inl error
  | inr false => inr st
  | inr true =>
      match tokenResponse w with
      | inl error => inl error
      | inr token =>
          inr {| chargePointToken := token; lastAuth := Some (authTime w);
                 chargingUsers := chargingUsers st; onHoldUsers := onHoldUsers st |}
      end
  end.

(** Lines 290-362. A rejected [await] leaves the function at once. *)
Definition pollChargePoint (firstRun : JsVal) (st : State) (w : World) : Outcome :=
  match gate (dateNow w) with
  | WeekendSleep =>
      mkOutcome WeekendSleep st [] [mkTimer [] (JNum (num_of_Z weekendSleepTime))] Resolved
  | AfterHoursSleep =>
      mkOutcome AfterHoursSleep st []
                [mkTimer [] (JNum (num_of_Z afterHoursSleepTime))] Resolved
  | Polling =>
      match authenticate st w with
      | inl error => mkOutcome Polling st [] [] (Rejected error)
      | inr st1 =>
          match getChargePointStationQueueDetail (queueDetailResponse w) with
          | inl error => mkOutcome Polling st1 [] [] (Rejected error)
          | inr detail =>
              let '(st2, out) := processSnapshot env slackUserIds firstRun st1 detail in
              mkOutcome Polling st2 out [mkTimer [] (pollingDelay env)] Resolved
          end
      end
  end.

(** ** The program: lines 377-383 and the timers *)

(** One entry per invocation of [pollChargePoint]: its argument, whether
    the caller attached a [catch] to the promise, and what it did. *)
Record Invocation : Type := mkInvocation {
  firstRun_arg : JsVal;
  has_catch : bool;
  outcome : Outcome
}.

(** The invocations of a run, one [World] each. The program keeps at most
    one timer; when an invocation leaves none, nothing is left to run. A
    timer callback's promise is dropped by [setTimeout]. *)
Fixpoint run (args : list JsVal) (catch : bool) (st : State) (ws : list World)
  : list Invocation :=
  match ws with
  | [] => []
  | w :: ws' =>
      let r := pollChargePoint (first_param args) st w in
      mkInvocation (first_param args) catch r ::
      match timers r with
      | [] => []
      | t :: _ => run (callback_args t) false (state_after r) ws'
      end
  end.

(** [pollChargePoint(true).then(...).catch(...)] *)
Definition main (ws : list World) : list Invocation :=
  run [JBool true] true initial_state ws.
End Poll.

(** ** A runtime for evaluation

    [decimal_runtime] agrees with the language on integers and on strings of
    decimal digits, the values of the examples below; what it returns
    elsewhere ([NaN]) is not used. *)

Definition digit_of (c : ascii) : option Z :=
  let n := Z.of_nat (nat_of_ascii c) in
  if (48 <=? n)%Z && (n <=? 57)%Z then Some (n - 48)%Z else None.

Fixpoint digits_value (acc : Z) (s : string) : option Z :=
  match s with
  | EmptyString => Some acc
  | String c s' =>
      match digit_of c with
      | Some d => digits_value (10 * acc + d) s'
      | None => None
      end
  end.

Definition decimal_of_string (s : string) : num :=
  match digits_value 0 s with
  | Some z => num_of_Z z
  | None => NaN
  end.

Definition string_of_integer (n : num) : string :=
  match n with
  | NaN => "NaN"
  | Fin q => if (Zpos (Qden (Qred q)) =? 1)%Z then pretty (Qnum (Qred q)) else "NaN"
  end.

Definition decimal_parseInt (v : JsVal) : num :=
  match v with
  | JNum (Fin q) => if (Zpos (Qden (Qred q)) =? 1)%Z then Fin q else NaN
  | JStr s => match s with EmptyString => NaN | _ => decimal_of_string s end
  | _ => NaN
  end.

#[local] Instance decimal_runtime : Builtins :=
  {| NumberToString := string_of_integer;
     StringToNumber := decimal_of_string;
     parseInt := decimal_parseInt;
     DateParse := fun _ => NaN |}.

(** ** Sequences of snapshots, and counting *)

Section Sequences.
Context `{Builtins}.
Variable env : ProcessEnv.
Variable slackUserIds : gmap string string.

(** Consecutive polls that reach line 309, each with the [firstRun] of its
    invocation and the snapshot it fetched. *)
Definition processSnapshots (st : State) (polls : list (JsVal * StationQueueDetail.t))
  : State * list Sent :=
  forEach (fun st' p => processSnapshot env slackUserIds (fst p) st' (snd p)) st polls.
End Sequences.

(** The number of messages of one kind sent from iterations on outlet [o]. *)
Definition count (kind : Sent -> bool) (o : string) (out : list Sent) : nat :=
  length (List.filter (fun m => kind m && String.eqb (at_outlet m) o) out).




(** Two charging records that agree on all but the flag, and two stores
    that hold such records on every outlet. *)
Definition same_occupant (a b : ChargingUser.t) : Prop :=
  ChargingUser.id a = ChargingUser.id b
  /\ ChargingUser.name a = ChargingUser.name b
  /\ ChargingUser.status a = ChargingUser.status b
  /\ ChargingUser.startTime a = ChargingUser.startTime b
  /\ ChargingUser.outlet a = ChargingUser.outlet b.

Definition same_occupants (s1 s2 : gmap string ChargingUser.t) : Prop :=
  forall o, option_Forall2 same_occupant (s1 !! o) (s2 !! o).

(** A message that mentions a recipient mentions what the read of the
    mapping finds under the name of the occupant. *)
Definition mentions_entry `{Builtins} (ids : gmap string string) (msg : Sent) : Prop :=
  match text msg with
  | HasStartedCharging _ _ => True
  | TimeAlmostUp r | YourTurn r => plain_get ids (ToPropertyKey (for_name msg)) = Some r
  end.

(** ** A station with one charging and one waiting subscriber

    The values of the scenario of the specification: a subscriber plugged in
    at second 1000 on outlet 1 of a station that allows 7200 seconds, and a
    second subscriber waiting to accept the same outlet. *)
Module Scenario.
(** The mapping that line 184 yields when [CPN_SLACK_USER_IDS] is not set. *)
Definition ids : gmap string string := {[ "farzaddaei" := "WCMTDDDRV" ]}.

Definition remoteA : RemoteChargingUser.t :=
  RemoteChargingUser.mk (JNum (num_of_Z 42)) (JStr "farzaddaei") (JStr "CHARGING")
    (JStr "1000000") (JNum (num_of_Z 1)).

Definition remoteB : RemoteOnHoldUser.t :=
  RemoteOnHoldUser.mk (JNum (num_of_Z 43)) (JStr "farzaddaei") (JStr "ACCEPT_PENDING")
    (JNum (num_of_Z 1)).

Definition message (currTime : string) : Message.t :=
  Message.mk (JStr "7200") (JStr currTime) [remoteA] [remoteB].

Definition userA : ChargingUser.t :=
  ChargingUser.mk (JNum (num_of_Z 42)) (JStr "farzaddaei") (JStr "CHARGING")
    (Fin (1000000 / 1000)) (JNum (num_of_Z 1)) false.

Definition userB : OnHoldUser.t :=
  OnHoldUser.mk (JNum (num_of_Z 43)) (JStr "farzaddaei") (JStr "ACCEPT_PENDING")
    (JNum (num_of_Z 1)) false.

Definition snapshot (currTime : Z) : StationQueueDetail.t :=
  StationQueueDetail.mk (num_of_Z 7200) (num_of_Z currTime) [userA] [userB].

(** Three polls in which the threshold holds each time. *)
Definition three_polls : list (JsVal * StationQueueDetail.t) :=
  [(JBool true, snapshot 7900); (JUndefined, snapshot 7960); (JUndefined, snapshot 8020)].

(** The same subscriber reported under another name and start time. *)
Definition renamedA : ChargingUser.t :=
  ChargingUser.mk (JNum (num_of_Z 42)) (JStr "someone") (JStr "DONE")
    (num_of_Z 5000) (JNum (num_of_Z 1)) false.

Definition world (day : Weekday) (hour : Z) (token : string + JsVal)
    (response : string + Message.t) : World :=
  mkWorld (mkDate (num_of_Z 0) day hour) (num_of_Z 0) token (num_of_Z 0) response.

(** [CPN_WARNING_OFFSET=300] in the environment. *)
Definition env_offset_300 : ProcessEnv :=
  {| CPN_POLLING_DELAY := None; CPN_AUTH_DELAY := None;
     CPN_WARNING_OFFSET := Some "300"; CPN_WORKING_START_TIME := None;
     CPN_WORKING_STOP_TIME := None |}.
End Scenario.

(** ** The name-to-recipient string (lines 184 and 364-374) *)

(** [s.split(sep)] for a separator of one character: the segment before the
    first separator, and the segments after it. *)
Fixpoint split_parts (sep : ascii) (s : string) : string * list string :=
  match s with
  | EmptyString => (EmptyString, [])
  | String c s' =>
      let '(first, rest) := split_parts sep s' in
      if Ascii.eqb c sep then (EmptyString, first :: rest) else (String c first, rest)
  end.

Definition js_split (sep : ascii) (s : string) : list string :=
  fst (split_parts sep s) :: snd (split_parts sep s).

(** Line 184. *)
Definition slackUserIdsString (CPN_SLACK_USER_IDS : option string) : string :=
  match CPN_SLACK_USER_IDS with
  | Some s => if String.eqb s "" then "farzaddaei:WCMTDDDRV" else s
  | None => "farzaddaei:WCMTDDDRV"
  end.

(** The callback of line 366: a segment with fewer than two parts is left
    out, the parts after the second are not read. *)
Definition parseUser (ids : gmap string string) (user : string) : gmap string string :=
  match js_split ":" user with
  | part0 :: part1 :: _ => plain_set ids part0 part1
  | _ => ids
  end.

(** Lines 365-371; nothing in them throws. *)
Definition parseSlackUserIds (slackUserIdsString : string) : gmap string string :=
  fold_left parseUser (js_split ";" slackUserIdsString) ∅.

(** The text that lists the pairs [ps] the way line 184 expects them. *)
Fixpoint join_users (ps : list (string * string)) : string :=
  match ps with
  | [] => EmptyString
  | [(k, v)] => String.append k (String ":" v)
  | (k, v) :: ps' => String.append k (String ":" (String.append v (String ";" (join_users ps'))))
  end.

(** A text without the character [c]. *)
Fixpoint free_of (c : ascii) (s : string) : bool :=
  match s with
  | EmptyString => true
  | String c' s' => negb (Ascii.eqb c' c) && free_of c s'
  end.

(** A pair whose two texts hold neither separator. *)
Definition plain_pair (p : string * string) : Prop :=
  free_of ";" (fst p) = true /\ free_of ":" (fst p) = true
  /\ free_of ";" (snd p) = true /\ free_of ":" (snd p) = true.

(** ** sendSlackMessage (lines 274-285) *)

(** Line 181, and line 5 of the earlier version. *)
Definition DEBUG_MODE (CPN_DEBUG_MODE : option string) : JsVal :=
  match CPN_DEBUG_MODE with
  | Some s => if String.eqb s "" then JBool true else JStr s
  | None => JBool true
  end.

Definition DEBUG_MODE_before (CPN_DEBUG_MODE : option string) : JsVal :=
  match CPN_DEBUG_MODE with
  | Some s => if String.eqb s "" then JBool false else JStr s
  | None => JBool false
  end.

(** What a call of [sendSlackMessage] does with its text. *)
Inductive Delivery : Type :=
| ConsoleLog (message : Text)
| AxiosPost (url : JsVal) (message : Text).

Definition sendSlackMessage (debug : JsVal) (slackHookUrl : JsVal) (message : Text)
  : Delivery :=
  if truthy debug then ConsoleLog message else AxiosPost slackHookUrl message.

(** ** Properties of the state *)

Section StateProperties.
Context `{Builtins}.
Variable slackUserIds : gmap string string.

(** While a token is held, the time of its request is known. *)
Definition session_dated (st : State) : Prop :=
  truthy (chargePointToken st) = true -> is_Some (lastAuth st).

(** Every record is stored under the key of its own outlet. *)
Definition filed_under_outlet (st : State) : Prop :=
  (forall o c, chargingUsers st !! o = Some c ->
               ToPropertyKey (ChargingUser.outlet c) = o)
  /\ (forall o c, onHoldUsers st !! o = Some c ->
                  ToPropertyKey (OnHoldUser.outlet c) = o).

(** A set flag belongs to an occupant whose status and name allow the
    notification: the status the notification asks for, and a name under
    which a read of the mapping finds something. *)
Definition flags_earned (st : State) : Prop :=
  (forall o c, chargingUsers st !! o = Some c ->
               ChargingUser.exitNotified c = true ->
               ChargingUser.status c = JStr "CHARGING"
               /\ is_Some (plain_get slackUserIds (ToPropertyKey (ChargingUser.name c))))
  /\ (forall o c, onHoldUsers st !! o = Some c ->
                  OnHoldUser.waitingNotified c = true ->
                  OnHoldUser.status c = JStr "ACCEPT_PENDING"
                  /\ is_Some (plain_get slackUserIds (ToPropertyKey (OnHoldUser.name c)))).
End StateProperties.

(** ** The earlier version of the file (lines 1-175)

    It has no gate, no [firstRun] and no timer of its own, and its mapping
    is the object of lines 8-10; [getChargePointStationQueueDetail] and the
    constants of lines 17-19 are those of the current version. *)
Section Before.
Context `{Builtins}.
Variable env : ProcessEnv.

Definition slackUserIds_before : gmap string string :=
  {[ "farzaddaei" := "WCMTDDDRV" ]}.

(** The body of the first [forEach] (lines 122-145). *)
Definition processChargingUser_before (maxChargingTime currTime : num)
    (store : gmap string ChargingUser.t) (user : ChargingUser.t)
  : gmap string ChargingUser.t * list Sent :=
  let outlet := ToPropertyKey (ChargingUser.outlet user) in
  let stored := store !! outlet in
  let c := charging_occupant stored user in
  let started :=
    if charging_changed stored user
    then [mkSent outlet (ChargingUser.name c)
            (HasStartedCharging (ChargingUser.name c)
               (num_mul (num_add (ChargingUser.startTime c) maxChargingTime)
                        (num_of_Z 1000)))]
    else [] in
  if exit_due env slackUserIds_before maxChargingTime currTime c
  then (<[outlet := ChargingUser.set_exitNotified c]> store,
        started ++ [mkSent outlet (ChargingUser.name c)
                      (TimeAlmostUp (recipient slackUserIds_before (ChargingUser.name c)))])
  else (<[outlet := c]> store, started).

(** The body of the second [forEach] (lines 150-163). *)
Definition processOnHoldUser_before (store : gmap string OnHoldUser.t)
    (user : OnHoldUser.t) : gmap string OnHoldUser.t * list Sent :=
  let outlet := ToPropertyKey (OnHoldUser.outlet user) in
  let c := onHold_occupant (store !! outlet) user in
  if turn_due slackUserIds_before c
  then (<[outlet := OnHoldUser.set_waitingNotified c]> store,
        [mkSent outlet (OnHoldUser.name c)
           (YourTurn (recipient slackUserIds_before (OnHoldUser.name c)))])
  else (<[outlet := c]> store, []).

(** Lines 110-167: the state it leaves, the messages it sends and how its
    promise settles. *)
Definition pollChargePoint_before (st : State) (w : World)
  : State * list Sent * Settled :=
  match authenticate env st w with
  | inl error => (st, [], Rejected error)
  | inr st1 =>
      match getChargePointStationQueueDetail (queueDetailResponse w) with
      | inl error => (st1, [], Rejected error)
      | inr detail =>
          let maxChargingTime := StationQueueDetail.maxChargingTime detail in
          let currTime := StationQueueDetail.currTime detail in
          let '(charging, out1) :=
            forEach (processChargingUser_before maxChargingTime currTime)
                    (chargingUsers st1) (StationQueueDetail.chargingUsers detail) in
          let '(onHold, out2) :=
            forEach processOnHoldUser_before (onHoldUsers st1)
                    (StationQueueDetail.onHoldUsers detail) in
          ({| chargePointToken := chargePointToken st1; lastAuth := lastAuth st1;
              chargingUsers := charging; onHoldUsers := onHold |},
           out1 ++ out2, Resolved)
      end
  end.
End Before.

(** * Properties *)

(** ** Reads of a plain object *)

Lemma plain_get_entry (obj : gmap string string) (key : string) :
  is_Some (obj !! key) -> plain_get obj key = obj !! key.
Proof. intros [value Hv]. unfold plain_get. now rewrite Hv. Qed.

Lemma plain_get_is_Some (obj : gmap string string) (key : string) :
  is_Some (obj !! key) -> is_Some (plain_get obj key).
Proof. intros Hv. now rewrite (plain_get_entry _ _ Hv). Qed.

(** ** Strict equality *)

Lemma strict_eq_undefined (v : JsVal) : strict_eq v JUndefined = true <-> v = JUndefined.
Proof. destruct v; simpl; split; intros E; try discriminate; reflexivity. Qed.







(** ** forEach *)

Lemma forEach_cons {S A : Type} (f : S -> A -> S * list Sent) (s : S) (x : A) (l : list A) :
  forEach f s (x :: l) =
  (fst (forEach f (fst (f s x)) l), snd (f s x) ++ snd (forEach f (fst (f s x)) l)).
Proof. simpl. destruct (f s x) as [s1 o1]. simpl. now destruct (forEach f s1 l). Qed.

(** A property of the store that every iteration keeps is kept by the loop,
    and a property of the messages that every iteration grants holds of all
    the messages of the loop. *)
Lemma forEach_invariant {S A : Type} (f : S -> A -> S * list Sent)
    (I : S -> Prop) (P : Sent -> Prop) (l : list A) :
  (forall s x, In x l -> I s -> I (fst (f s x)) /\ Forall P (snd (f s x))) ->
  forall s, I s -> I (fst (forEach f s l)) /\ Forall P (snd (forEach f s l)).
Proof.
  induction l as [|x l IH]; intros Hstep s Hs.
  - simpl. split; [exact Hs | constructor].
  - rewrite forEach_cons. simpl.
    destruct (Hstep s x (or_introl eq_refl) Hs) as [Hs1 Hout1].
    destruct (IH (fun s' y Hy => Hstep s' y (or_intror Hy)) _ Hs1) as [Hs2 Hout2].
    split; [exact Hs2 | apply Forall_app; split; assumption].
Qed.

Section FetchProperties.
Context `{Builtins}.

Lemma filter_map_toChargingUser (l : list RemoteChargingUser.t) :
  List.filter id_defined (List.map toChargingUser l) =
  List.map toChargingUser
    (List.filter
       (fun r => negb (strict_eq (RemoteChargingUser.subscriberId r) JUndefined)) l).
Proof.
  induction l as [|r l IH]; [reflexivity|].
  simpl. unfold id_defined at 1. simpl.
  destruct (strict_eq (RemoteChargingUser.subscriberId r) JUndefined); simpl;
    now rewrite IH.
Qed.

(** C7. For every remote message, the [chargingUsers] of the snapshot are
    the remote entries whose [subscriberId] is not [undefined], in order,
    each mapped field by field with [exitNotified] false; every remote
    [onHoldUsers] entry is kept, whatever its [subscriberId], mapped field
    by field with [waitingNotified] false. *)
Theorem fetch_filters_charging_only (data : Message.t) :
  let d := stationQueueDetail data in
  StationQueueDetail.chargingUsers d =
    List.map
      (fun r => ChargingUser.mk
                  (RemoteChargingUser.subscriberId r)
                  (RemoteChargingUser.subscriberEvatarName r)
                  (RemoteChargingUser.subscriberQueueState r)
                  (num_div (parseInt (RemoteChargingUser.pluginEpochTime r)) 1000)
                  (RemoteChargingUser.outletNumber r)
                  false)
      (List.filter
         (fun r => negb (strict_eq (RemoteChargingUser.subscriberId r) JUndefined))
         (Message.chargingUsers data))
  /\ Forall (fun u => ChargingUser.id u <> JUndefined
                     /\ ChargingUser.exitNotified u = false)
            (StationQueueDetail.chargingUsers d)
  /\ StationQueueDetail.onHoldUsers d =
    List.map
      (fun r => OnHoldUser.mk
                  (RemoteOnHoldUser.subscriberId r)
                  (RemoteOnHoldUser.subscriberEvatarName r)
                  (RemoteOnHoldUser.portQueueSubState r)
                  (RemoteOnHoldUser.outletNumber r)
                  false)
      (Message.onHoldUsers data)
  /\ length (StationQueueDetail.onHoldUsers d) = length (Message.onHoldUsers data).
Proof.
  cbv zeta. unfold stationQueueDetail. cbn [StationQueueDetail.chargingUsers
    StationQueueDetail.onHoldUsers].
  split; [apply filter_map_toChargingUser|].
  split; [|split; [reflexivity | apply length_map]].
  apply List.Forall_forall. intros u Hu.
  apply List.filter_In in Hu. destruct Hu as [Hin Hdef].
  apply List.in_map_iff in Hin. destruct Hin as [r [<- _]].
  split; [|reflexivity].
  unfold id_defined in Hdef. intros Hid.
  apply strict_eq_undefined in Hid. rewrite Hid in Hdef. discriminate.
Qed.
End FetchProperties.

(** An on-hold entry without [subscriberId] reaches the snapshot, a charging
    entry without it does not. *)
Example fetch_keeps_undefined_onHold :
  let data :=
    Message.mk (JStr "7200") (JStr "1000")
      [RemoteChargingUser.mk JUndefined (JStr "a") (JStr "CHARGING") (JStr "1000000")
         (JNum (num_of_Z 1))]
      [RemoteOnHoldUser.mk JUndefined (JStr "b") (JStr "ACCEPT_PENDING")
         (JNum (num_of_Z 2))] in
  StationQueueDetail.chargingUsers (stationQueueDetail data) = []
  /\ StationQueueDetail.onHoldUsers (stationQueueDetail data) =
     [OnHoldUser.mk JUndefined (JStr "b") (JStr "ACCEPT_PENDING") (JNum (num_of_Z 2)) false].
Proof. split; reflexivity. Qed.

(** ** The day and hour gate *)

Section GateProperties.
Context `{Builtins}.
Variable env : ProcessEnv.
Variable slackUserIds : gmap string string.

(** The days on which line 293 holds are those numbered 1 and 6. *)
Lemma gate_weekend_iff (now : Date) :
  gate env now = WeekendSleep <-> weekday now = Monday \/ weekday now = Saturday.
Proof.
  unfold gate, getDay, sundayDayOfWeek, saturdayDayOfWeek.
  destruct now as [t d h]. cbn [weekday getHours].
  generalize (js_lt (num_of_Z h) (workingStarTime env)
              || js_gt (num_of_Z h) (workingStopTime env)).
  intros b. destruct d, b; cbn; split; intros E;
    try discriminate; try (destruct E; discriminate); auto.
Qed.

(** The hour is looked at on the other days only, and sends the program to
    sleep when it is below the start or above the stop hour. *)
Lemma gate_after_hours_iff (now : Date) :
  gate env now = AfterHoursSleep <->
  (weekday now <> Monday /\ weekday now <> Saturday)
  /\ (js_lt (num_of_Z (getHours now)) (workingStarTime env) = true
      \/ js_gt (num_of_Z (getHours now)) (workingStopTime env) = true).
Proof.
  unfold gate, getDay, sundayDayOfWeek, saturdayDayOfWeek.
  destruct now as [t d h]. cbn [weekday getHours].
  rewrite <- orb_true_iff.
  generalize (js_lt (num_of_Z h) (workingStarTime env)
              || js_gt (num_of_Z h) (workingStopTime env)).
  intros b. destruct d, b; cbn; split; intros E;
    try discriminate; try reflexivity.
  all: try (split; [split; discriminate | reflexivity]).
  all: destruct E as [[E1 E2] E3]; congruence.
Qed.

(** A skipped invocation sends nothing, keeps the state and leaves one
    timer, of six hours or of one hour. *)
Lemma gate_sleep_outcome (firstRun : JsVal) (st : State) (w : World) :
  gate env (dateNow w) <> Polling ->
  let r := pollChargePoint env slackUserIds firstRun st w in
  state_after r = st /\ sent r = [] /\ settled r = Resolved
  /\ timers r =
     [mkTimer [] (JNum (num_of_Z
        match gate env (dateNow w) with
        | WeekendSleep => weekendSleepTime
        | _ => afterHoursSleepTime
        end))].
Proof.
  intros Hg. cbv zeta. unfold pollChargePoint.
  destruct (gate env (dateNow w)); [| |congruence]; simpl; auto.
Qed.

(** C6. The long sleep is taken on Mondays, whatever the hour, and is
    never taken on Sundays: on a Sunday the hour alone decides, and a
    Sunday at ten with the default hours is polled. *)
Theorem gate_sleeps_on_monday_not_on_sunday (t : num) (h : Z) :
  is_weekend Monday = false
  /\ gate env (mkDate t Monday h) = WeekendSleep
  /\ is_weekend Sunday = true
  /\ gate env (mkDate t Sunday h) <> WeekendSleep
  /\ gate default_env (mkDate t Sunday 10) = Polling.
Proof.
  split; [reflexivity|]. split; [now apply gate_weekend_iff; left|].
  split; [reflexivity|]. split; [|reflexivity].
  intros E. apply gate_weekend_iff in E. destruct E; discriminate.
Qed.
End GateProperties.

(** ** The timer chain *)

Section RunProperties.
Context `{Builtins}.
Variable env : ProcessEnv.
Variable slackUserIds : gmap string string.

(** Each of the three [setTimeout] calls passes the function alone. *)
Lemma poll_timers_no_args (firstRun : JsVal) (st : State) (w : World) :
  Forall (fun t => callback_args t = [])
         (timers (pollChargePoint env slackUserIds firstRun st w)).
Proof.
  unfold pollChargePoint.
  destruct (gate env (dateNow w)); simpl; try (repeat constructor).
  destruct (authenticate env st w) as [e|st1]; simpl; [constructor|].
  destruct (getChargePointStationQueueDetail (queueDetailResponse w)) as [e|d];
    simpl; [constructor|].
  destruct (processSnapshot env slackUserIds firstRun st1 d). simpl.
  repeat constructor.
Qed.

Lemma run_firstRun_args (ws : list World) :
  forall (args : list JsVal) (catch : bool) (st : State),
    List.map firstRun_arg (run env slackUserIds args catch st ws) =
    take (length (run env slackUserIds args catch st ws))
         (first_param args :: replicate (length ws) JUndefined).
Proof.
  induction ws as [|w ws IH]; intros args catch st; [reflexivity|].
  simpl. f_equal.
  pose proof (poll_timers_no_args (first_param args) st w) as Hargs.
  destruct (timers (pollChargePoint env slackUserIds (first_param args) st w))
    as [|t ts]; [reflexivity|].
  inversion Hargs as [|? ? Ht _]; subst. rewrite Ht.
  rewrite IH. reflexivity.
Qed.

Lemma run_has_catch (ws : list World) :
  forall (args : list JsVal) (catch : bool) (st : State),
    List.map has_catch (run env slackUserIds args catch st ws) =
    take (length (run env slackUserIds args catch st ws))
         (catch :: replicate (length ws) false).
Proof.
  induction ws as [|w ws IH]; intros args catch st; [reflexivity|].
  simpl. f_equal.
  destruct (timers (pollChargePoint env slackUserIds (first_param args) st w))
    as [|t ts]; [reflexivity|].
  rewrite IH. reflexivity.
Qed.

(** C10. Every timer that an invocation sets (after a weekend skip, after
    an after-hours skip, as the next cycle) carries no argument; in a run
    of the program the first invocation has [firstRun] true and every
    later one has it [undefined], which is falsy. *)
Theorem firstRun_true_only_at_startup (ws : list World) :
  (forall firstRun st w,
      Forall (fun t => callback_args t = [])
             (timers (pollChargePoint env slackUserIds firstRun st w)))
  /\ List.map firstRun_arg (main env slackUserIds ws) =
     take (length (main env slackUserIds ws))
          (JBool true :: replicate (length ws) JUndefined)
  /\ first_param [] = JUndefined
  /\ truthy JUndefined = false.
Proof.
  split; [intros; apply poll_timers_no_args|].
  split; [apply (run_firstRun_args ws [JBool true] true initial_state)|].
  split; reflexivity.
Qed.

(** C5. In a cycle started by a timer that reaches line 302, when the
    session refresh is due and fails, or when the snapshot fetch fails,
    the promise is rejected with nothing attached to catch it, no timer is
    set, and the run has no further invocation, whatever the outside
    would have answered next. *)
Theorem failed_cycle_ends_the_run (st : State) (w : World) (ws : list World)
    (error : string) :
  gate env (dateNow w) = Polling ->
  (must_authenticate env st (authCheckTime w) = inr true
   /\ tokenResponse w = inl error)
  \/ ((exists st1, authenticate env st w = inr st1)
      /\ queueDetailResponse w = inl error) ->
  exists st',
    run env slackUserIds [] false st (w :: ws) =
    [mkInvocation JUndefined false (mkOutcome Polling st' [] [] (Rejected error))].
Proof.
  intros Hg Hfail. simpl. unfold pollChargePoint. rewrite Hg.
  destruct Hfail as [[Hm Ht]|[Ha Hq]].
  - exists st. unfold authenticate. rewrite Hm, Ht. reflexivity.
  - destruct Ha as [st1 Ha]. exists st1. rewrite Ha, Hq. reflexivity.
Qed.
End RunProperties.

(** ** The diff of one snapshot entry *)

Section DiffProperties.
Context `{Builtins}.
Variable env : ProcessEnv.
Variable slackUserIds : gmap string string.

Abbreviation ckey u := (ToPropertyKey (ChargingUser.outlet u)).
Abbreviation hkey u := (ToPropertyKey (OnHoldUser.outlet u)).
Abbreviation pcu := (processChargingUser env slackUserIds).
Abbreviation phu := (processOnHoldUser slackUserIds).
Abbreviation due := (exit_due env slackUserIds).
Abbreviation tdue := (turn_due slackUserIds).

(** The two effects of an iteration of the first loop, side by side. *)
Lemma processChargingUser_eq firstRun m t (store : gmap string ChargingUser.t) user :
  let c := charging_occupant (store !! ckey user) user in
  pcu firstRun m t store user =
  (<[ckey user := if due m t c then ChargingUser.set_exitNotified c else c]> store,
   (if charging_changed (store !! ckey user) user && negb (truthy firstRun)
    then [mkSent (ckey user) (ChargingUser.name c)
            (HasStartedCharging (ChargingUser.name c)
               (num_mul (num_add (ChargingUser.startTime c) m) (num_of_Z 1000)))]
    else [])
   ++ (if due m t c
       then [mkSent (ckey user) (ChargingUser.name c)
               (TimeAlmostUp (recipient slackUserIds (ChargingUser.name c)))]
       else [])).
Proof.
  cbv zeta. unfold processChargingUser.
  destruct (due m t _); [reflexivity|]. now rewrite app_nil_r.
Qed.

Lemma processOnHoldUser_eq (store : gmap string OnHoldUser.t) user :
  let c := onHold_occupant (store !! hkey user) user in
  phu store user =
  (<[hkey user := if tdue c then OnHoldUser.set_waitingNotified c else c]> store,
   if tdue c
   then [mkSent (hkey user) (OnHoldUser.name c)
           (YourTurn (recipient slackUserIds (OnHoldUser.name c)))]
   else []).
Proof. cbv zeta. unfold processOnHoldUser. now destruct (tdue _). Qed.

(** An iteration touches the slot of its own outlet only. *)
Lemma processChargingUser_other firstRun m t (store : gmap string ChargingUser.t) user o :
  o <> ckey user -> fst (pcu firstRun m t store user) !! o = store !! o.
Proof. intros Ho. rewrite processChargingUser_eq. simpl. now rewrite lookup_insert_ne. Qed.

Lemma processChargingUser_own firstRun m t (store : gmap string ChargingUser.t) user :
  let c := charging_occupant (store !! ckey user) user in
  fst (pcu firstRun m t store user) !! ckey user =
  Some (if due m t c then ChargingUser.set_exitNotified c else c).
Proof. cbv zeta. rewrite processChargingUser_eq. simpl. now rewrite lookup_insert_eq. Qed.

Lemma processOnHoldUser_other (store : gmap string OnHoldUser.t) user o :
  o <> hkey user -> fst (phu store user) !! o = store !! o.
Proof. intros Ho. rewrite processOnHoldUser_eq. simpl. now rewrite lookup_insert_ne. Qed.

Lemma processOnHoldUser_own (store : gmap string OnHoldUser.t) user :
  let c := onHold_occupant (store !! hkey user) user in
  fst (phu store user) !! hkey user =
  Some (if tdue c then OnHoldUser.set_waitingNotified c else c).
Proof. cbv zeta. rewrite processOnHoldUser_eq. simpl. now rewrite lookup_insert_eq. Qed.

(** Every message of an iteration carries the key of its outlet. *)
Lemma processChargingUser_outlet firstRun m t (store : gmap string ChargingUser.t) user :
  Forall (fun msg => at_outlet msg = ckey user /\ is_your_turn msg = false)
         (snd (pcu firstRun m t store user)).
Proof.
  rewrite processChargingUser_eq. simpl.
  destruct (_ && _), (due m t _); simpl; repeat constructor.
Qed.

Lemma processOnHoldUser_outlet (store : gmap string OnHoldUser.t) user :
  Forall (fun msg => at_outlet msg = hkey user
                     /\ is_started msg = false /\ is_almost_up msg = false)
         (snd (phu store user)).
Proof.
  rewrite processOnHoldUser_eq. simpl. destruct (tdue _); repeat constructor.
Qed.

(** The occupant is kept when its id is the one of the entry. *)
Lemma charging_occupant_same c user :
  strict_eq (ChargingUser.id c) (ChargingUser.id user) = true ->
  charging_changed (Some c) user = false /\ charging_occupant (Some c) user = c.
Proof. intros E. unfold charging_occupant, charging_changed. now rewrite E. Qed.

Lemma charging_occupant_new stored user :
  charging_changed stored user = true -> charging_occupant stored user = user.
Proof.
  intros E. unfold charging_occupant. destruct stored; [|reflexivity]. now rewrite E.
Qed.

Lemma onHold_occupant_same c user :
  strict_eq (OnHoldUser.id c) (OnHoldUser.id user) = true ->
  onHold_changed (Some c) user = false /\ onHold_occupant (Some c) user = c.
Proof. intros E. unfold onHold_occupant, onHold_changed. now rewrite E. Qed.

Lemma onHold_occupant_new stored user :
  onHold_changed stored user = true -> onHold_occupant stored user = user.
Proof.
  intros E. unfold onHold_occupant. destruct stored; [|reflexivity]. now rewrite E.
Qed.

(** A set flag rules the notification out. *)
Lemma exit_due_flag m t c : due m t c = true -> ChargingUser.exitNotified c = false.
Proof.
  unfold exit_due. intros E. apply andb_true_iff in E. destruct E as [_ E].
  now apply negb_true_iff in E.
Qed.

Lemma turn_due_flag c : tdue c = true -> OnHoldUser.waitingNotified c = false.
Proof.
  unfold turn_due. intros E. apply andb_true_iff in E. destruct E as [_ E].
  now apply negb_true_iff in E.
Qed.

Lemma exit_due_notified m t c : due m t (ChargingUser.set_exitNotified c) = false.
Proof. unfold exit_due. simpl. apply andb_false_r. Qed.

Lemma turn_due_notified c : tdue (OnHoldUser.set_waitingNotified c) = false.
Proof. unfold turn_due. simpl. apply andb_false_r. Qed.

(** The snapshot loops, one track at a time. *)
Lemma processSnapshot_eq firstRun st d :
  processSnapshot env slackUserIds firstRun st d =
  (let cs := forEach (pcu firstRun (StationQueueDetail.maxChargingTime d)
                          (StationQueueDetail.currTime d))
                     (chargingUsers st) (StationQueueDetail.chargingUsers d) in
   let hs := forEach phu (onHoldUsers st) (StationQueueDetail.onHoldUsers d) in
   (mkState (chargePointToken st) (lastAuth st) (fst cs) (fst hs), snd cs ++ snd hs)).
Proof.
  unfold processSnapshot. cbv zeta.
  destruct (forEach (pcu _ _ _) _ _), (forEach phu _ _). reflexivity.
Qed.

Lemma Forall_trivial_sent (out : list Sent) : Forall (fun _ => True) out.
Proof. apply List.Forall_forall. intros; exact I. Qed.

(** The slot of an outlet after a loop in which every entry for the outlet
    has the id of its occupant [c]: [c] itself, or [c] with the flag set
    if the flag was not. *)
Lemma charging_loop_same_occupant firstRun m t o c (l : list ChargingUser.t) :
  (forall u, In u l -> ckey u = o ->
             strict_eq (ChargingUser.id c) (ChargingUser.id u) = true) ->
  forall store : gmap string ChargingUser.t,
    store !! o = Some c
    \/ (ChargingUser.exitNotified c = false
        /\ store !! o = Some (ChargingUser.set_exitNotified c)) ->
    fst (forEach (pcu firstRun m t) store l) !! o = Some c
    \/ (ChargingUser.exitNotified c = false
        /\ fst (forEach (pcu firstRun m t) store l) !! o
           = Some (ChargingUser.set_exitNotified c)).
Proof.
  intros Hsame store Hstore.
  apply (forEach_invariant (pcu firstRun m t)
           (fun s : gmap string ChargingUser.t =>
              s !! o = Some c
              \/ (ChargingUser.exitNotified c = false
                  /\ s !! o = Some (ChargingUser.set_exitNotified c)))
           (fun _ => True) l); [|exact Hstore].
  intros s x Hx Hs. split; [|apply Forall_trivial_sent].
  destruct (String.string_dec o (ckey x)) as [E|N].
  - pose proof (Hsame x Hx (eq_sym E)) as Hid. subst o.
    rewrite processChargingUser_own.
    destruct Hs as [Hs|[Hflag Hs]]; rewrite Hs.
    + destruct (charging_occupant_same c x Hid) as [_ ->].
      destruct (due m t c) eqn:D; [right|left; reflexivity].
      split; [apply (exit_due_flag _ _ _ D) | reflexivity].
    + destruct (charging_occupant_same (ChargingUser.set_exitNotified c) x Hid)
        as [_ ->].
      rewrite exit_due_notified. right. split; [exact Hflag | reflexivity].
  - rewrite (processChargingUser_other _ _ _ _ _ _ N). exact Hs.
Qed.

Lemma onHold_loop_same_occupant o c (l : list OnHoldUser.t) :
  (forall u, In u l -> hkey u = o ->
             strict_eq (OnHoldUser.id c) (OnHoldUser.id u) = true) ->
  forall store : gmap string OnHoldUser.t,
    store !! o = Some c
    \/ (OnHoldUser.waitingNotified c = false
        /\ store !! o = Some (OnHoldUser.set_waitingNotified c)) ->
    fst (forEach phu store l) !! o = Some c
    \/ (OnHoldUser.waitingNotified c = false
        /\ fst (forEach phu store l) !! o = Some (OnHoldUser.set_waitingNotified c)).
Proof.
  intros Hsame store Hstore.
  apply (forEach_invariant phu
           (fun s : gmap string OnHoldUser.t =>
              s !! o = Some c
              \/ (OnHoldUser.waitingNotified c = false
                  /\ s !! o = Some (OnHoldUser.set_waitingNotified c)))
           (fun _ => True) l); [|exact Hstore].
  intros s x Hx Hs. split; [|apply Forall_trivial_sent].
  destruct (String.string_dec o (hkey x)) as [E|N].
  - pose proof (Hsame x Hx (eq_sym E)) as Hid. subst o.
    rewrite processOnHoldUser_own.
    destruct Hs as [Hs|[Hflag Hs]]; rewrite Hs.
    + destruct (onHold_occupant_same c x Hid) as [_ ->].
      destruct (tdue c) eqn:D; [right|left; reflexivity].
      split; [apply (turn_due_flag _ D) | reflexivity].
    + destruct (onHold_occupant_same (OnHoldUser.set_waitingNotified c) x Hid)
        as [_ ->].
      rewrite turn_due_notified. right. split; [exact Hflag | reflexivity].
  - rewrite (processOnHoldUser_other _ _ _ N). exact Hs.
Qed.

(** C9. While every entry that a snapshot has for an outlet carries the id
    of the occupant stored for it, processing the snapshot leaves the
    stored record as it was, on either track, or sets its notification
    flag, which was false: [id], [name], [status], [startTime] and
    [outlet] keep the values with which the occupant was stored, whatever
    the entries report for them. *)
Theorem same_occupant_keeps_fields (firstRun : JsVal) (st : State)
    (d : StationQueueDetail.t) (o : string) :
  let st' := fst (processSnapshot env slackUserIds firstRun st d) in
  (forall c,
      chargingUsers st !! o = Some c ->
      (forall u, In u (StationQueueDetail.chargingUsers d) -> ckey u = o ->
                 strict_eq (ChargingUser.id c) (ChargingUser.id u) = true) ->
      chargingUsers st' !! o = Some c
      \/ (ChargingUser.exitNotified c = false
          /\ chargingUsers st' !! o =
             Some (ChargingUser.mk (ChargingUser.id c) (ChargingUser.name c)
                     (ChargingUser.status c) (ChargingUser.startTime c)
                     (ChargingUser.outlet c) true)))
  /\ (forall c,
        onHoldUsers st !! o = Some c ->
        (forall u, In u (StationQueueDetail.onHoldUsers d) -> hkey u = o ->
                   strict_eq (OnHoldUser.id c) (OnHoldUser.id u) = true) ->
        onHoldUsers st' !! o = Some c
        \/ (OnHoldUser.waitingNotified c = false
            /\ onHoldUsers st' !! o =
               Some (OnHoldUser.mk (OnHoldUser.id c) (OnHoldUser.name c)
                       (OnHoldUser.status c) (OnHoldUser.outlet c) true))).
Proof.
  cbv zeta. rewrite processSnapshot_eq. cbn [fst chargingUsers onHoldUsers].
  split; intros c Hc Hsame.
  - apply charging_loop_same_occupant; [exact Hsame | left; exact Hc].
  - apply onHold_loop_same_occupant; [exact Hsame | left; exact Hc].
Qed.

(** ** At most one message of each kind per occupancy *)









Lemma forEach_sent {S A : Type} (f : S -> A -> S * list Sent) (P : Sent -> Prop)
    (l : list A) :
  (forall s x, Forall P (snd (f s x))) -> forall s, Forall P (snd (forEach f s l)).
Proof.
  intros Hstep s.
  apply (forEach_invariant f (fun _ => True) P l); [|exact I].
  intros s' x _ _. split; [exact I | apply Hstep].
Qed.


Lemma onHold_loop_kinds (store : gmap string OnHoldUser.t) l :
  Forall (fun msg => is_started msg = false /\ is_almost_up msg = false)
         (snd (forEach phu store l)).
Proof.
  apply forEach_sent. intros s x.
  eapply List.Forall_impl; [|apply processOnHoldUser_outlet].
  intros msg (_ & H1 & H2). split; assumption.
Qed.





(** ** The flags *)

(** C3. For an entry of a fetched snapshot, on either track. When the
    outlet is empty or its stored occupant has another id, the entry takes
    the slot with its flag false, and the notification of the same
    iteration is decided on that fresh record. When the stored occupant has
    the id of the entry, it stays: its record is what it was, or has its
    flag turned from false to true by the notification; a set flag is not
    cleared. The slots of the other outlets are not touched. So a flag that
    was set is lost only to an entry with another id. *)
Theorem flags_reset_only_for_new_occupant (firstRun : JsVal) (m t : num)
    (cs : gmap string ChargingUser.t) (hs : gmap string OnHoldUser.t)
    (r : RemoteChargingUser.t) (q : RemoteOnHoldUser.t) :
  let u := toChargingUser r in
  let v := toOnHoldUser q in
  let cs' := fst (pcu firstRun m t cs u) in
  let hs' := fst (phu hs v) in
  ((cs !! ckey u = None
    \/ exists c, cs !! ckey u = Some c
                 /\ strict_eq (ChargingUser.id c) (ChargingUser.id u) = false) ->
   ChargingUser.exitNotified u = false
   /\ cs' !! ckey u = Some (if due m t u then ChargingUser.set_exitNotified u else u))
  /\ (forall c, cs !! ckey u = Some c ->
                strict_eq (ChargingUser.id c) (ChargingUser.id u) = true ->
                cs' !! ckey u = Some (if due m t c then ChargingUser.set_exitNotified c else c)
                /\ (ChargingUser.exitNotified c = true -> cs' !! ckey u = Some c))
  /\ (forall o, o <> ckey u -> cs' !! o = cs !! o)
  /\ (forall o c, cs !! o = Some c -> ChargingUser.exitNotified c = true ->
                  (o = ckey u
                   /\ strict_eq (ChargingUser.id c) (ChargingUser.id u) = false)
                  \/ cs' !! o = Some c)
  /\ ((hs !! hkey v = None
       \/ exists c, hs !! hkey v = Some c
                    /\ strict_eq (OnHoldUser.id c) (OnHoldUser.id v) = false) ->
      OnHoldUser.waitingNotified v = false
      /\ hs' !! hkey v = Some (if tdue v then OnHoldUser.set_waitingNotified v else v))
  /\ (forall c, hs !! hkey v = Some c ->
                strict_eq (OnHoldUser.id c) (OnHoldUser.id v) = true ->
                hs' !! hkey v = Some (if tdue c then OnHoldUser.set_waitingNotified c else c)
                /\ (OnHoldUser.waitingNotified c = true -> hs' !! hkey v = Some c))
  /\ (forall o, o <> hkey v -> hs' !! o = hs !! o)
  /\ (forall o c, hs !! o = Some c -> OnHoldUser.waitingNotified c = true ->
                  (o = hkey v
                   /\ strict_eq (OnHoldUser.id c) (OnHoldUser.id v) = false)
                  \/ hs' !! o = Some c).
Proof.
  cbv zeta.
  assert (forall c, cs !! ckey (toChargingUser r) = Some c ->
            strict_eq (ChargingUser.id c) (ChargingUser.id (toChargingUser r)) = true ->
            fst (pcu firstRun m t cs (toChargingUser r)) !! ckey (toChargingUser r)
            = Some (if due m t c then ChargingUser.set_exitNotified c else c)
            /\ (ChargingUser.exitNotified c = true ->
                fst (pcu firstRun m t cs (toChargingUser r)) !! ckey (toChargingUser r)
                = Some c)) as Hsame.
  { intros c Hc Hid. rewrite processChargingUser_own, Hc.
    destruct (charging_occupant_same c _ Hid) as [_ ->]. split; [reflexivity|].
    intros Hflag. unfold exit_due. rewrite Hflag. now rewrite andb_false_r. }
  assert (forall c, hs !! hkey (toOnHoldUser q) = Some c ->
            strict_eq (OnHoldUser.id c) (OnHoldUser.id (toOnHoldUser q)) = true ->
            fst (phu hs (toOnHoldUser q)) !! hkey (toOnHoldUser q)
            = Some (if tdue c then OnHoldUser.set_waitingNotified c else c)
            /\ (OnHoldUser.waitingNotified c = true ->
                fst (phu hs (toOnHoldUser q)) !! hkey (toOnHoldUser q) = Some c)) as Hsame'.
  { intros c Hc Hid. rewrite processOnHoldUser_own, Hc.
    destruct (onHold_occupant_same c _ Hid) as [_ ->]. split; [reflexivity|].
    intros Hflag. unfold turn_due. rewrite Hflag. now rewrite andb_false_r. }
  split; [|split; [exact Hsame|split; [|split; [|split; [|split; [exact Hsame'|split]]]]]].
  - intros Hnew. split; [reflexivity|]. rewrite processChargingUser_own.
    rewrite charging_occupant_new; [reflexivity|].
    destruct Hnew as [->|(c & -> & Hid)]; [reflexivity|].
    cbn [charging_changed]. now rewrite Hid.
  - intros o N. now apply processChargingUser_other.
  - intros o c Hc Hflag.
    destruct (String.string_dec o (ckey (toChargingUser r))) as [E|N];
      [|right; now rewrite processChargingUser_other].
    destruct (strict_eq (ChargingUser.id c) (ChargingUser.id (toChargingUser r))) eqn:Eid;
      [right|left; split; [exact E | reflexivity]].
    subst o. apply (Hsame c Hc Eid), Hflag.
  - intros Hnew. split; [reflexivity|]. rewrite processOnHoldUser_own.
    rewrite onHold_occupant_new; [reflexivity|].
    destruct Hnew as [->|(c & -> & Hid)]; [reflexivity|].
    cbn [onHold_changed]. now rewrite Hid.
  - intros o N. now apply processOnHoldUser_other.
  - intros o c Hc Hflag.
    destruct (String.string_dec o (hkey (toOnHoldUser q))) as [E|N];
      [|right; now rewrite processOnHoldUser_other].
    destruct (strict_eq (OnHoldUser.id c) (OnHoldUser.id (toOnHoldUser q))) eqn:Eid;
      [right|left; split; [exact E | reflexivity]].
    subst o. apply (Hsame' c Hc Eid), Hflag.
Qed.

(** ** The threshold *)

(** With an offset that is a number, the condition of lines 333-336 on an
    occupant that is charging, mapped and not yet notified is the
    comparison of the two sums. *)
Lemma exit_due_numeric_offset (c : ChargingUser.t) (s mx cur w : Q) :
  exitWarningOffset env = JNum (Fin w) ->
  ChargingUser.status c = JStr "CHARGING" ->
  is_Some (slackUserIds !! ToPropertyKey (ChargingUser.name c)) ->
  ChargingUser.exitNotified c = false ->
  ChargingUser.startTime c = Fin s ->
  (due (Fin mx) (Fin cur) c = true <-> (s + mx <= cur + w)%Q).
Proof.
  intros Hw Hst Hmap Hflag Hs. unfold exit_due.
  rewrite Hw, Hst, Hflag, Hs, (bool_decide_eq_true_2 _ (plain_get_is_Some _ _ Hmap)).
  cbn. rewrite andb_true_r. apply Qle_bool_iff.
Qed.

(** The same for the iteration on an entry that finds its subscriber on
    the outlet: the message is sent exactly when the comparison holds. *)
Lemma almost_up_iff_numeric_offset firstRun (store : gmap string ChargingUser.t)
    (user c : ChargingUser.t) (s mx cur w : Q) :
  store !! ckey user = Some c ->
  strict_eq (ChargingUser.id c) (ChargingUser.id user) = true ->
  exitWarningOffset env = JNum (Fin w) ->
  ChargingUser.status c = JStr "CHARGING" ->
  is_Some (slackUserIds !! ToPropertyKey (ChargingUser.name c)) ->
  ChargingUser.exitNotified c = false ->
  ChargingUser.startTime c = Fin s ->
  (Exists (fun msg => is_almost_up msg = true)
          (snd (pcu firstRun (Fin mx) (Fin cur) store user))
   <-> (s + mx <= cur + w)%Q).
Proof.
  intros Hc Hid Hw Hst Hmap Hflag Hs.
  rewrite <- (exit_due_numeric_offset c s mx cur w Hw Hst Hmap Hflag Hs).
  rewrite processChargingUser_eq. cbn [snd]. rewrite Hc.
  destruct (charging_occupant_same c user Hid) as [-> ->]. cbn [andb app].
  destruct (due (Fin mx) (Fin cur) c); split; intros E; try discriminate.
  - reflexivity.
  - constructor. reflexivity.
  - inversion E.
Qed.

(** ** The first run *)

Lemma filter_all (kind : Sent -> bool) (out : list Sent) :
  Forall (fun msg => kind msg = true) out -> List.filter kind out = out.
Proof.
  induction 1 as [|msg out Hmsg _ IH]; [reflexivity|].
  simpl. now rewrite Hmsg, IH.
Qed.

Lemma forEach_filter {S A : Type} (f g : S -> A -> S * list Sent) (kind : Sent -> bool)
    (l : list A) :
  (forall s x, fst (f s x) = fst (g s x)
               /\ snd (f s x) = List.filter kind (snd (g s x))) ->
  forall s, fst (forEach f s l) = fst (forEach g s l)
            /\ snd (forEach f s l) = List.filter kind (snd (forEach g s l)).
Proof.
  intros Hstep. induction l as [|x l IH]; intros s; [split; reflexivity|].
  rewrite !forEach_cons. cbn [fst snd].
  destruct (Hstep s x) as [E1 E2]. rewrite E1, E2, List.filter_app.
  destruct (IH (fst (g s x))) as [E3 E4]. now rewrite E3, E4.
Qed.

(** An invocation with a truthy [firstRun] leaves the state that the same
    invocation without it leaves, and sends its messages but the
    "has started charging" ones. *)
Lemma firstRun_suppresses_started (firstRun : JsVal) (st : State)
    (d : StationQueueDetail.t) :
  truthy firstRun = true ->
  fst (processSnapshot env slackUserIds firstRun st d) =
    fst (processSnapshot env slackUserIds JUndefined st d)
  /\ snd (processSnapshot env slackUserIds firstRun st d) =
     List.filter (fun msg => negb (is_started msg))
                 (snd (processSnapshot env slackUserIds JUndefined st d)).
Proof.
  intros Hfr. rewrite !processSnapshot_eq. cbv zeta. cbn [fst snd].
  destruct (forEach_filter
              (pcu firstRun (StationQueueDetail.maxChargingTime d)
                   (StationQueueDetail.currTime d))
              (pcu JUndefined (StationQueueDetail.maxChargingTime d)
                   (StationQueueDetail.currTime d))
              (fun msg => negb (is_started msg))
              (StationQueueDetail.chargingUsers d)) with (s := chargingUsers st)
    as [E1 E2].
  { intros s x. rewrite !processChargingUser_eq. cbn [fst snd]. split; [reflexivity|].
    rewrite Hfr. cbn [negb truthy]. rewrite andb_false_r, andb_true_r.
    rewrite List.filter_app.
    destruct (charging_changed _ _), (due _ _ _); reflexivity. }
  rewrite E1, E2, List.filter_app. split; [reflexivity|]. f_equal.
  symmetry. apply filter_all.
  eapply List.Forall_impl; [|apply onHold_loop_kinds].
  intros msg [-> _]. reflexivity.
Qed.
End DiffProperties.

(** ** The mapping *)

Section MappingProperties.
Context `{Builtins}.
Variable env : ProcessEnv.

Abbreviation ckey u := (ToPropertyKey (ChargingUser.outlet u)).

Lemma exit_due_mapped ids m t c :
  exit_due env ids m t c = true ->
  plain_get ids (ToPropertyKey (ChargingUser.name c))
  = Some (recipient ids (ChargingUser.name c)).
Proof.
  unfold exit_due, recipient. rewrite !andb_true_iff.
  intros [[[_ Hmap] _] _]. apply bool_decide_eq_true in Hmap.
  destruct Hmap as [r ->]. reflexivity.
Qed.

Lemma turn_due_mapped ids c :
  turn_due ids c = true ->
  plain_get ids (ToPropertyKey (OnHoldUser.name c))
  = Some (recipient ids (OnHoldUser.name c)).
Proof.
  unfold turn_due, recipient. rewrite !andb_true_iff.
  intros [[_ Hmap] _]. apply bool_decide_eq_true in Hmap.
  destruct Hmap as [r ->]. reflexivity.
Qed.

Lemma processChargingUser_mentions ids firstRun m t
    (store : gmap string ChargingUser.t) user :
  Forall (mentions_entry ids) (snd (processChargingUser env ids firstRun m t store user)).
Proof.
  rewrite processChargingUser_eq. cbn [snd]. apply Forall_app. split.
  - destruct (_ && _); repeat constructor.
  - destruct (exit_due env ids m t _) eqn:D; repeat constructor.
    unfold mentions_entry. cbn [text for_name]. apply (exit_due_mapped _ _ _ _ D).
Qed.

Lemma processOnHoldUser_mentions ids (store : gmap string OnHoldUser.t) user :
  Forall (mentions_entry ids) (snd (processOnHoldUser ids store user)).
Proof.
  rewrite processOnHoldUser_eq. cbn [snd].
  destruct (turn_due ids _) eqn:D; repeat constructor.
  unfold mentions_entry. cbn [text for_name]. apply (turn_due_mapped _ _ D).
Qed.

Lemma filter_none (kind : Sent -> bool) (out : list Sent) :
  Forall (fun msg => kind msg = false) out -> List.filter kind out = [].
Proof.
  induction 1 as [|msg out Hmsg _ IH]; [reflexivity|]. simpl. now rewrite Hmsg.
Qed.

Lemma onHold_loop_not_started ids (store : gmap string OnHoldUser.t) l :
  List.filter is_started (snd (forEach (processOnHoldUser ids) store l)) = [].
Proof.
  apply filter_none. eapply List.Forall_impl; [|apply onHold_loop_kinds].
  intros msg [Hs _]. exact Hs.
Qed.

(** The "has started charging" part of an iteration. *)
Lemma processChargingUser_started ids firstRun m t
    (store : gmap string ChargingUser.t) user :
  let c := charging_occupant (store !! ckey user) user in
  List.filter is_started (snd (processChargingUser env ids firstRun m t store user)) =
  if charging_changed (store !! ckey user) user && negb (truthy firstRun)
  then [mkSent (ckey user) (ChargingUser.name c)
          (HasStartedCharging (ChargingUser.name c)
             (num_mul (num_add (ChargingUser.startTime c) m) (num_of_Z 1000)))]
  else [].
Proof.
  cbv zeta. rewrite processChargingUser_eq. cbn [snd]. rewrite List.filter_app.
  destruct (_ && _), (exit_due env ids m t _); reflexivity.
Qed.

Lemma same_occupant_refl a : same_occupant a a.
Proof. repeat split. Qed.

(** From stores that agree up to the flags, an iteration takes the same
    decision at line 317, under any two mappings. *)
Lemma charging_occupant_agree (a b : option ChargingUser.t) user :
  option_Forall2 same_occupant a b ->
  charging_changed a user = charging_changed b user
  /\ same_occupant (charging_occupant a user) (charging_occupant b user).
Proof.
  intros [x y Hxy|]; [|split; [reflexivity | apply same_occupant_refl]].
  unfold charging_occupant, charging_changed.
  destruct Hxy as (Eid & Hrest). rewrite Eid. split; [reflexivity|].
  destruct (negb _); [apply same_occupant_refl | split; [exact Eid | exact Hrest]].
Qed.

Lemma processChargingUser_agree ids1 ids2 firstRun m t
    (s1 s2 : gmap string ChargingUser.t) user :
  same_occupants s1 s2 ->
  same_occupants (fst (processChargingUser env ids1 firstRun m t s1 user))
                 (fst (processChargingUser env ids2 firstRun m t s2 user))
  /\ List.filter is_started (snd (processChargingUser env ids1 firstRun m t s1 user)) =
     List.filter is_started (snd (processChargingUser env ids2 firstRun m t s2 user)).
Proof.
  intros Hs.
  destruct (charging_occupant_agree _ _ user (Hs (ckey user))) as [Ech Hocc].
  split.
  - intros o. rewrite !processChargingUser_eq. cbn [fst].
    destruct (String.string_dec (ckey user) o) as [<-|N].
    + rewrite !lookup_insert_eq. constructor.
      destruct (exit_due env ids1 m t _), (exit_due env ids2 m t _); exact Hocc.
    + rewrite !lookup_insert_ne by exact N. apply Hs.
  - rewrite !processChargingUser_started. cbv zeta. rewrite Ech.
    destruct Hocc as (_ & -> & _ & -> & _). reflexivity.
Qed.

Lemma charging_loop_agree ids1 ids2 firstRun m t (l : list ChargingUser.t) :
  forall s1 s2 : gmap string ChargingUser.t,
    same_occupants s1 s2 ->
    List.filter is_started (snd (forEach (processChargingUser env ids1 firstRun m t) s1 l)) =
    List.filter is_started (snd (forEach (processChargingUser env ids2 firstRun m t) s2 l)).
Proof.
  induction l as [|x l IH]; intros s1 s2 Hs; [reflexivity|].
  rewrite !forEach_cons. cbn [snd]. rewrite !List.filter_app.
  destruct (processChargingUser_agree ids1 ids2 firstRun m t s1 s2 x Hs) as [Hs' ->].
  now rewrite (IH _ _ Hs').
Qed.

(** Every "almost up" and every "your turn" message of a snapshot mentions
    what the read of the mapping finds under the name of its occupant, an
    entry or a member of [Object.prototype]; for a name under which the read
    finds nothing, the only messages sent are "has started charging" ones;
    and the "has started charging" messages are the same under any other
    mapping, the empty one included. *)
Lemma recipient_messages_follow_the_read (slackUserIds : gmap string string)
    (firstRun : JsVal) (st : State) (d : StationQueueDetail.t) :
  Forall (fun msg =>
            match text msg with
            | HasStartedCharging _ _ => True
            | TimeAlmostUp r | YourTurn r =>
                plain_get slackUserIds (ToPropertyKey (for_name msg)) = Some r
            end)
         (snd (processSnapshot env slackUserIds firstRun st d))
  /\ (forall name : JsVal,
        plain_get slackUserIds (ToPropertyKey name) = None ->
        Forall (fun msg => for_name msg = name -> is_started msg = true)
               (snd (processSnapshot env slackUserIds firstRun st d)))
  /\ forall other : gmap string string,
      List.filter is_started (snd (processSnapshot env slackUserIds firstRun st d)) =
      List.filter is_started (snd (processSnapshot env other firstRun st d)).
Proof.
  assert (Forall (mentions_entry slackUserIds)
                 (snd (processSnapshot env slackUserIds firstRun st d))) as Hall.
  { rewrite processSnapshot_eq. cbv zeta. cbn [snd]. apply Forall_app. split.
    - apply forEach_sent. intros s x. apply processChargingUser_mentions.
    - apply forEach_sent. intros s x. apply processOnHoldUser_mentions. }
  split; [exact Hall|]. split.
  - intros name Hnone. eapply List.Forall_impl; [|exact Hall].
    intros msg Hmsg Hname. unfold mentions_entry in Hmsg. unfold is_started.
    destruct (text msg); [reflexivity| |]; rewrite Hname in Hmsg; congruence.
  - intros other. rewrite !processSnapshot_eq. cbv zeta. cbn [snd].
    rewrite !List.filter_app. f_equal.
    + apply charging_loop_agree. intros o. destruct (chargingUsers st !! o).
      * constructor. apply same_occupant_refl.
      * constructor.
    + now rewrite !onHold_loop_not_started.
Qed.
End MappingProperties.

(** ** The scenario, evaluated *)

Example scenario_snapshot :
  stationQueueDetail (Scenario.message "7900") = Scenario.snapshot 7900.
Proof. reflexivity. Qed.

(** The scenario of the specification: the second snapshot, within 300
    seconds of second 8200, sends the one "almost up" message. *)
Example scenario_messages :
  snd (processSnapshots default_env Scenario.ids initial_state
         [(JUndefined, Scenario.snapshot 1000); (JUndefined, Scenario.snapshot 7900);
          (JUndefined, Scenario.snapshot 7960)]) =
  [mkSent "1" (JStr "farzaddaei")
     (HasStartedCharging (JStr "farzaddaei") (num_mul (Fin ((1000000 / 1000) + 7200)) (num_of_Z 1000)));
   mkSent "1" (JStr "farzaddaei") (YourTurn "WCMTDDDRV");
   mkSent "1" (JStr "farzaddaei") (TimeAlmostUp "WCMTDDDRV")].
Proof. vm_compute. reflexivity. Qed.


(** In those three polls the "almost up" and the "your turn" message are
    sent, once, and the first run keeps the "started" one back. *)
Example three_polls_counts :
  let out := snd (processSnapshots default_env Scenario.ids initial_state
                    Scenario.three_polls) in
  count is_started "1" out = 0
  /\ count is_almost_up "1" out = 1
  /\ count is_your_turn "1" out = 1.
Proof. vm_compute. repeat split. Qed.

(** With the default offset the message is sent at equality of the two
    sums, and is not sent when the left one is one second above. *)
Example threshold_boundary :
  let store : gmap string ChargingUser.t := {[ "1" := Scenario.userA ]} in
  snd (processChargingUser default_env Scenario.ids JUndefined
         (num_of_Z 7200) (num_of_Z 7900) store Scenario.userA)
  = [mkSent "1" (JStr "farzaddaei") (TimeAlmostUp "WCMTDDDRV")]
  /\ snd (processChargingUser default_env Scenario.ids JUndefined
            (num_of_Z 7200) (num_of_Z 7899) store Scenario.userA)
     = [].
Proof. vm_compute. split; reflexivity. Qed.

(** C2. With [CPN_WARNING_OFFSET=300] in the environment the offset is the
    string "300": for the charging, mapped, not yet notified occupant of the
    scenario, at second 1000, line 335 compares 8200 with the number read
    from "1000300", and the "almost up" message is sent although 8200 is far
    above 1000 + 300. *)
Theorem almost_up_with_offset_from_environment :
  let store : gmap string ChargingUser.t := {[ "1" := Scenario.userA ]} in
  exitWarningOffset Scenario.env_offset_300 = JStr "300"
  /\ js_add (JNum (num_of_Z 1000)) (exitWarningOffset Scenario.env_offset_300)
     = JStr "1000300"
  /\ ~ (1000000 / 1000 + 7200 <= 1000 + 300)%Q
  /\ snd (processChargingUser Scenario.env_offset_300 Scenario.ids JUndefined
            (num_of_Z 7200) (num_of_Z 1000) store Scenario.userA)
     = [mkSent "1" (JStr "farzaddaei") (TimeAlmostUp "WCMTDDDRV")]
  /\ snd (processChargingUser default_env Scenario.ids JUndefined
            (num_of_Z 7200) (num_of_Z 1000) store Scenario.userA)
     = [].
Proof.
  cbv zeta. split; [reflexivity|]. split; [reflexivity|].
  split; [intros Hle; apply Qle_bool_iff in Hle; discriminate|].
  split; vm_compute; reflexivity.
Qed.

(** C8. A subscriber whose name is [constructor] charges on outlet 1 and
    another one of that name waits for it. The name has no entry in the
    mapping, but line 334 and line 353 read [slackUserIds["constructor"]],
    which is the constructor that every plain object inherits and not
    [undefined]: the "almost up" and the "your turn" message are sent, with
    the text of that function in the place of the recipient, and both flags
    are set. *)
Theorem recipient_messages_for_inherited_name :
  let charging := ChargingUser.mk (JNum (num_of_Z 42)) (JStr "constructor")
                    (JStr "CHARGING") (num_of_Z 1000) (JNum (num_of_Z 1)) false in
  let waiting := OnHoldUser.mk (JNum (num_of_Z 43)) (JStr "constructor")
                   (JStr "ACCEPT_PENDING") (JNum (num_of_Z 1)) false in
  let d := StationQueueDetail.mk (num_of_Z 7200) (num_of_Z 7900) [charging] [waiting] in
  let r := processSnapshot default_env Scenario.ids (JBool true) initial_state d in
  Scenario.ids !! "constructor" = None
  /\ snd r =
     [mkSent "1" (JStr "constructor")
        (TimeAlmostUp "function Object() { [native code] }");
      mkSent "1" (JStr "constructor")
        (YourTurn "function Object() { [native code] }")]
  /\ chargingUsers (fst r) !! "1" = Some (ChargingUser.set_exitNotified charging)
  /\ onHoldUsers (fst r) !! "1" = Some (OnHoldUser.set_waitingNotified waiting).
Proof. vm_compute. repeat split. Qed.

(** On both tracks an occupant with a set flag and another id is replaced
    by the subscriber of the scenario. The charging entry is stored with its
    flag false, nothing being due at second 1000; the waiting entry, fresh
    as well, gets its "your turn" in the same iteration. *)
Lemma flags_reset_only_for_new_occupant_witness :
  let old := ChargingUser.mk (JNum (num_of_Z 7)) (JStr "x") (JStr "CHARGING")
               (num_of_Z 0) (JNum (num_of_Z 1)) true in
  let old' := OnHoldUser.mk (JNum (num_of_Z 8)) (JStr "x") (JStr "ACCEPT_PENDING")
                (JNum (num_of_Z 1)) true in
  let cs : gmap string ChargingUser.t := {[ "1" := old ]} in
  let hs : gmap string OnHoldUser.t := {[ "1" := old' ]} in
  (ChargingUser.exitNotified (toChargingUser Scenario.remoteA) = false
   /\ fst (processChargingUser default_env Scenario.ids JUndefined
             (num_of_Z 7200) (num_of_Z 1000) cs (toChargingUser Scenario.remoteA)) !! "1"
      = Some (toChargingUser Scenario.remoteA))
  /\ (OnHoldUser.waitingNotified (toOnHoldUser Scenario.remoteB) = false
      /\ fst (processOnHoldUser Scenario.ids hs (toOnHoldUser Scenario.remoteB)) !! "1"
         = Some (OnHoldUser.set_waitingNotified (toOnHoldUser Scenario.remoteB))).
Proof.
  intros old old' cs hs.
  pose proof (flags_reset_only_for_new_occupant default_env Scenario.ids JUndefined
                (num_of_Z 7200) (num_of_Z 1000) cs hs
                Scenario.remoteA Scenario.remoteB) as W.
  cbv zeta in W. destruct W as (Wc & _ & _ & _ & Wh & _).
  split.
  - exact (Wc (or_intror (ex_intro _ old (conj eq_refl eq_refl)))).
  - exact (Wh (or_intror (ex_intro _ old' (conj eq_refl eq_refl)))).
Defined.

(** The subscriber of the scenario, stored with the flag set, is reported
    under another name, status and start time: the record is kept. *)
Lemma same_occupant_keeps_fields_witness :
  let stored := ChargingUser.set_exitNotified Scenario.userA in
  let st := mkState (JStr "token") (Some (num_of_Z 0)) {[ "1" := stored ]} ∅ in
  let d := StationQueueDetail.mk (num_of_Z 7200) (num_of_Z 9000) [Scenario.renamedA] [] in
  chargingUsers (fst (processSnapshot default_env Scenario.ids JUndefined st d)) !! "1"
    = Some stored
  \/ (ChargingUser.exitNotified stored = false
      /\ chargingUsers (fst (processSnapshot default_env Scenario.ids JUndefined st d)) !! "1"
         = Some stored).
Proof.
  intros stored st d.
  assert (forall u, In u (StationQueueDetail.chargingUsers d) ->
                    ToPropertyKey (ChargingUser.outlet u) = "1" ->
                    strict_eq (ChargingUser.id stored) (ChargingUser.id u) = true)
    as Hsame.
  { intros u Hu _. destruct Hu as [<-|[]]. reflexivity. }
  pose proof (proj1 (same_occupant_keeps_fields default_env Scenario.ids JUndefined
                       st d "1") stored eq_refl Hsame) as W.
  exact W.
Defined.

(** C4. The program is started on a Tuesday at seven, before the working
    hours: the invocation with [firstRun] true does not poll and sets the
    one-hour timer. The invocation of that timer is the first to fetch a
    snapshot; its [firstRun] is [undefined], and it sends "has started
    charging" for the occupant it finds. *)
Theorem first_poll_after_early_start_announces :
  let ws := [Scenario.world Tuesday 7 (inr (JStr "token")) (inr (Scenario.message "1000"));
             Scenario.world Tuesday 8 (inr (JStr "token")) (inr (Scenario.message "1000"))] in
  List.map (fun inv => (firstRun_arg inv, gate_taken (outcome inv), sent (outcome inv)))
           (main default_env Scenario.ids ws)
  = [(JBool true, AfterHoursSleep, []);
     (JUndefined, Polling,
      [mkSent "1" (JStr "farzaddaei")
         (HasStartedCharging (JStr "farzaddaei")
            (num_mul (Fin (1000000 / 1000 + 7200)) (num_of_Z 1000)));
       mkSent "1" (JStr "farzaddaei") (YourTurn "WCMTDDDRV")])].
Proof. vm_compute. reflexivity. Qed.

(** Started within the working hours, the first invocation polls and keeps
    the "has started charging" message back, not the others. *)
Example first_poll_in_working_hours :
  let ws := [Scenario.world Tuesday 8 (inr (JStr "token")) (inr (Scenario.message "7900"))] in
  List.map (fun inv => (firstRun_arg inv, gate_taken (outcome inv), sent (outcome inv)))
           (main default_env Scenario.ids ws)
  = [(JBool true, Polling,
      [mkSent "1" (JStr "farzaddaei") (TimeAlmostUp "WCMTDDDRV");
       mkSent "1" (JStr "farzaddaei") (YourTurn "WCMTDDDRV")])].
Proof. vm_compute. reflexivity. Qed.

(** A cycle started by a timer in which the token request fails: the run
    stops there, and the world that would have answered next is not used. *)
Lemma failed_cycle_ends_the_run_witness :
  exists st',
    run default_env Scenario.ids [] false initial_state
      [Scenario.world Tuesday 10 (inl "ECONNRESET") (inr (Scenario.message "1000"));
       Scenario.world Tuesday 10 (inr (JStr "token")) (inr (Scenario.message "1060"))]
    = [mkInvocation JUndefined false
         (mkOutcome Polling st' [] [] (Rejected "ECONNRESET"))].
Proof.
  apply (failed_cycle_ends_the_run default_env Scenario.ids initial_state).
  - reflexivity.
  - left. split; reflexivity.
Defined.

(** The same in a run of the program: the second cycle fails to fetch, and
    there is no third invocation. *)
Example steady_state_fetch_failure :
  let ws := [Scenario.world Tuesday 10 (inr (JStr "token")) (inr (Scenario.message "1000"));
             Scenario.world Tuesday 10 (inr (JStr "token")) (inl "ETIMEDOUT");
             Scenario.world Tuesday 10 (inr (JStr "token")) (inr (Scenario.message "1120"))] in
  List.map (fun inv => (has_catch inv, settled (outcome inv), timers (outcome inv)))
           (main default_env Scenario.ids ws)
  = [(true, Resolved, [mkTimer [] (JNum (num_of_Z 60000))]);
     (false, Rejected "ETIMEDOUT", [])].
Proof. vm_compute. reflexivity. Qed.


(** * Further properties of the code *)

(** ** The name-to-recipient string *)

Lemma split_parts_free (sep : ascii) (a : string) :
  free_of sep a = true -> split_parts sep a = (a, []).
Proof.
  induction a as [|c a IH]; intros Hfree; [reflexivity|].
  simpl in Hfree. apply andb_true_iff in Hfree. destruct Hfree as [Hc Ha].
  simpl. rewrite (IH Ha). apply negb_true_iff in Hc. now rewrite Hc.
Qed.

Lemma js_split_free (sep : ascii) (a : string) :
  free_of sep a = true -> js_split sep a = [a].
Proof. intros Hfree. unfold js_split. now rewrite (split_parts_free _ _ Hfree). Qed.

Lemma js_split_append (sep : ascii) (a b : string) :
  free_of sep a = true ->
  js_split sep (String.append a (String sep b)) = a :: js_split sep b.
Proof.
  unfold js_split. induction a as [|c a IH]; intros Hfree.
  - simpl. destruct (split_parts sep b). now rewrite Ascii.eqb_refl.
  - simpl in Hfree. apply andb_true_iff in Hfree. destruct Hfree as [Hc Ha].
    apply negb_true_iff in Hc. specialize (IH Ha). simpl.
    destruct (split_parts sep (String.append a (String sep b))) as [first rest].
    rewrite Hc. simpl in IH |- *. now inversion IH.
Qed.

Lemma free_of_append (c : ascii) (a b : string) :
  free_of c (String.append a b) = free_of c a && free_of c b.
Proof.
  induction a as [|c' a IH]; [reflexivity|]. simpl. now rewrite IH, andb_assoc.
Qed.

Lemma parseUser_pair (ids : gmap string string) (k v : string) :
  free_of ":" k = true -> free_of ":" v = true ->
  parseUser ids (String.append k (String ":" v)) = plain_set ids k v.
Proof.
  intros Hk Hv. unfold parseUser.
  now rewrite (js_split_append _ _ _ Hk), (js_split_free _ _ Hv).
Qed.

Lemma join_users_cons (k v : string) (q : string * string) (ps : list (string * string)) :
  join_users ((k, v) :: q :: ps) =
  String.append (String.append k (String ":" v)) (String ";" (join_users (q :: ps))).
Proof.
  transitivity (String.append k (String ":" (String.append v
                  (String ";" (join_users (q :: ps)))))); [reflexivity|].
  generalize (join_users (q :: ps)). intros j.
  induction k as [|c k IHk]; [reflexivity|].
  change (String c (String.append k (String ":" (String.append v (String ";" j))))
          = String c (String.append (String.append k (String ":" v)) (String ";" j))).
  now rewrite IHk.
Qed.

Lemma js_split_join_users (ps : list (string * string)) :
  ps <> [] -> Forall plain_pair ps ->
  js_split ";" (join_users ps) =
  List.map (fun p => String.append (fst p) (String ":" (snd p))) ps.
Proof.
  induction ps as [|[k v] ps IH]; intros Hne Hall; [congruence|].
  inversion Hall as [|? ? (Hk1 & Hk2 & Hv1 & Hv2) Hrest]; subst.
  cbn [fst snd] in Hk1, Hk2, Hv1, Hv2.
  assert (free_of ";" (String.append k (String ":" v)) = true) as Hkv.
  { rewrite free_of_append. cbn [free_of]. rewrite Hk1, Hv1. reflexivity. }
  destruct ps as [|q ps].
  - cbn [join_users List.map fst snd]. apply (js_split_free _ _ Hkv).
  - rewrite join_users_cons, (js_split_append _ _ _ Hkv).
    rewrite (IH ltac:(discriminate) Hrest). reflexivity.
Qed.

Lemma join_users_not_empty (ps : list (string * string)) :
  ps <> [] -> slackUserIdsString (Some (join_users ps)) = join_users ps.
Proof.
  intros Hne. unfold slackUserIdsString.
  assert (String.eqb (join_users ps) "" = false) as ->; [|reflexivity].
  destruct ps as [|[k v] ps]; [congruence|].
  destruct ps as [|q ps]; [|rewrite join_users_cons]; destruct k; reflexivity.
Qed.

Lemma fold_plain_set (ps : list (string * string)) :
  forall m : gmap string string,
    fold_left (fun (m : gmap string string) p => plain_set m (fst p) (snd p)) ps m
    = fold_left (fun (m : gmap string string) p => <[fst p := snd p]> m)
        (List.filter (fun p => negb (String.eqb (fst p) "__proto__")) ps) m.
Proof.
  induction ps as [|[k v] ps IH]; intros m; [reflexivity|].
  cbn [fold_left List.filter fst snd]. unfold plain_set at 2.
  destruct (String.eqb k "__proto__"); cbn [negb fold_left fst snd]; apply IH.
Qed.

(** X1. Round trip of the mapping: for pairs of texts without [;] and [:],
    the program started with [CPN_SLACK_USER_IDS] set to the text that lists
    them as [name:id;name:id;...] holds the pairs as its entries, a later
    pair winning over an earlier one with the same name, but for the pairs
    named [__proto__], which leave no entry. With no pair the text is empty
    and line 184 falls back on its own pair. *)
Theorem parseSlackUserIds_join (ps : list (string * string)) :
  Forall plain_pair ps ->
  parseSlackUserIds (slackUserIdsString (Some (join_users ps))) =
  match ps with
  | [] => {[ "farzaddaei" := "WCMTDDDRV" ]}
  | _ => list_to_map
           (rev (List.filter (fun p => negb (String.eqb (fst p) "__proto__")) ps))
  end.
Proof.
  intros Hall. destruct ps as [|p0 ps0]; [reflexivity|].
  set (ps := p0 :: ps0) in *.
  rewrite join_users_not_empty by discriminate. unfold parseSlackUserIds.
  rewrite js_split_join_users by (try discriminate; exact Hall).
  assert (forall m : gmap string string,
            fold_left parseUser
              (List.map (fun p => String.append (fst p) (String ":" (snd p))) ps) m
            = fold_left (fun (m : gmap string string) p => plain_set m (fst p) (snd p))
                ps m) as ->.
  { clearbody ps.
    induction Hall as [|[k v] qs (_ & Hk & _ & Hv) _ IH]; intros m; [reflexivity|].
    cbn [List.map fold_left fst snd]. rewrite (parseUser_pair m k v Hk Hv). apply IH. }
  rewrite fold_plain_set. unfold list_to_map. rewrite fold_left_rev_right. reflexivity.
Qed.

Lemma parseSlackUserIds_join_witness :
  parseSlackUserIds
    (slackUserIdsString
       (Some (join_users [("ann", "U1"); ("__proto__", "U9"); ("bob", "U2"); ("ann", "U3")])))
  = list_to_map
      (rev (List.filter (fun p => negb (String.eqb (fst p) "__proto__"))
              [("ann", "U1"); ("__proto__", "U9"); ("bob", "U2"); ("ann", "U3")])).
Proof.
  apply (parseSlackUserIds_join
           [("ann", "U1"); ("__proto__", "U9"); ("bob", "U2"); ("ann", "U3")]).
  repeat constructor.
Defined.

(** The text of line 184 gives the mapping of the scenario. *)
Example parseSlackUserIds_default :
  parseSlackUserIds (slackUserIdsString None) = Scenario.ids.
Proof. reflexivity. Qed.

(** X2. A segment without [:] adds nothing to the mapping, and of a segment
    with more than one [:] only the first two parts are read: the second
    becomes the entry of the first, unless the first is [__proto__], for
    which nothing is stored. *)
Theorem parseUser_parts (ids : gmap string string) (k v rest : string) :
  free_of ":" k = true -> free_of ":" v = true ->
  parseUser ids k = ids
  /\ parseUser ids (String.append k (String ":" (String.append v (String ":" rest))))
     = (if String.eqb k "__proto__" then ids else <[k := v]> ids).
Proof.
  intros Hk Hv. unfold parseUser. split.
  - now rewrite (js_split_free _ _ Hk).
  - rewrite (js_split_append _ _ _ Hk), (js_split_append _ _ _ Hv). reflexivity.
Qed.

Lemma parseUser_parts_witness :
  (parseUser Scenario.ids "bob" = Scenario.ids
   /\ parseUser Scenario.ids "bob:U2:U9" = <["bob" := "U2"]> Scenario.ids)
  /\ (parseUser Scenario.ids "__proto__" = Scenario.ids
      /\ parseUser Scenario.ids "__proto__:U2:U9" = Scenario.ids).
Proof.
  split.
  - apply (parseUser_parts Scenario.ids "bob" "U2" "U9"); reflexivity.
  - apply (parseUser_parts Scenario.ids "__proto__" "U2" "U9"); reflexivity.
Defined.

(** ** sendSlackMessage *)

(** X3. Whatever [CPN_DEBUG_MODE] is, the debug flag of line 181 is truthy
    and [sendSlackMessage] writes the text to the console: no message is
    posted to the hook. With the flag of the earlier version a message is
    posted exactly when the variable is unset or empty. *)
Theorem sendSlackMessage_never_posts (CPN_DEBUG_MODE : option string)
    (slackHookUrl : JsVal) (message : Text) :
  sendSlackMessage (DEBUG_MODE CPN_DEBUG_MODE) slackHookUrl message = ConsoleLog message
  /\ (sendSlackMessage (DEBUG_MODE_before CPN_DEBUG_MODE) slackHookUrl message
      = AxiosPost slackHookUrl message
      <-> CPN_DEBUG_MODE = None \/ CPN_DEBUG_MODE = Some "").
Proof.
  unfold sendSlackMessage, DEBUG_MODE, DEBUG_MODE_before.
  destruct CPN_DEBUG_MODE as [s|]; [|split; [reflexivity | split; auto]].
  destruct (String.eqb s "") eqn:E; simpl.
  - apply String.eqb_eq in E. subst s. split; [reflexivity | split; auto].
  - rewrite E. simpl. split; [reflexivity|]. split; [discriminate|].
    intros [H0|H0]; [discriminate|]. inversion H0; subst. discriminate.
Qed.

(** ** The gate and the session, with and without configuration *)

Lemma num_lt_of_Z (a b : Z) : num_lt (num_of_Z a) (num_of_Z b) = (a <? b)%Z.
Proof.
  unfold num_lt, num_of_Z.
  destruct (Qle_bool (inject_Z b) (inject_Z a)) eqn:E; simpl; symmetry.
  - apply Qle_bool_iff in E. rewrite <- Zle_Qle in E. apply Z.ltb_ge. exact E.
  - apply Z.ltb_lt. apply Z.lt_nge. intros Hle. rewrite Zle_Qle in Hle.
    apply Qle_bool_iff in Hle. congruence.
Qed.

Section GateAndSession.
Context `{Builtins}.

(** X4. With no working hour configured, an invocation polls exactly on
    the days other than Monday and Saturday and in the hours from 8 to 18,
    both included: polling goes on until 18:59. *)
Theorem gate_default_hours (now : Date) :
  gate default_env now = Polling <->
  (weekday now <> Monday /\ weekday now <> Saturday)
  /\ (8 <= getHours now <= 18)%Z.
Proof.
  unfold gate, getDay, sundayDayOfWeek, saturdayDayOfWeek, js_lt, js_gt.
  destruct now as [t d h]. cbn [weekday getHours].
  change (ToNumber (workingStarTime default_env)) with (num_of_Z 8).
  change (ToNumber (workingStopTime default_env)) with (num_of_Z 18).
  rewrite !num_lt_of_Z.
  destruct (h <? 8)%Z eqn:E1, (18 <? h)%Z eqn:E2;
    try apply Z.ltb_lt in E1; try apply Z.ltb_lt in E2;
    try apply Z.ltb_ge in E1; try apply Z.ltb_ge in E2;
    destruct d; cbn; split; intros E;
    first [discriminate | reflexivity | intuition (first [congruence | lia])].
Qed.

(** X5. When neither configured working hour reads as a number, the hour is
    never a reason to sleep: every invocation on a day other than Monday and
    Saturday polls. *)
Theorem gate_unreadable_hours (env : ProcessEnv) (now : Date) :
  ToNumber (workingStarTime env) = NaN ->
  ToNumber (workingStopTime env) = NaN ->
  gate env now <> AfterHoursSleep
  /\ (weekday now <> Monday -> weekday now <> Saturday -> gate env now = Polling).
Proof.
  intros Hstart Hstop. unfold gate, getDay, sundayDayOfWeek, saturdayDayOfWeek, js_lt, js_gt.
  rewrite Hstart, Hstop. destruct now as [t d h]. cbn [weekday getHours].
  destruct d; cbn; split; try discriminate; try reflexivity; congruence.
Qed.

(** X6. Without a truthy token line 302 always asks for a new one, whatever
    the configuration and whether [lastAuth] was ever set. With a truthy
    token and no refresh delay configured it asks for one exactly when
    thirty minutes or more have passed since the last one. *)
Theorem must_authenticate_default (env : ProcessEnv) (st : State) :
  (truthy (chargePointToken st) = false ->
   forall now, must_authenticate env st now = inr true)
  /\ (truthy (chargePointToken st) = true ->
      forall t n : Q,
        lastAuth st = Some (Fin t) ->
        (must_authenticate default_env st (Fin n) = inr true
         <-> (t + 1800000 <= n)%Q)
        /\ exists b, must_authenticate default_env st (Fin n) = inr b).
Proof.
  unfold must_authenticate. split; intros ->; cbn [negb].
  - reflexivity.
  - intros t n ->.
    change (new_Date (js_add (JNum (Fin t)) (authDelay default_env)))
      with (Fin (t + inject_Z 1800000)).
    cbn [num_le]. split; [|eauto].
    split; intros E.
    + injection E as E. apply Qle_bool_iff in E. exact E.
    + f_equal. apply Qle_bool_iff. exact E.
Qed.
End GateAndSession.

Lemma gate_unreadable_hours_witness :
  let env := {| CPN_POLLING_DELAY := None; CPN_AUTH_DELAY := None;
                CPN_WARNING_OFFSET := None; CPN_WORKING_START_TIME := Some "8am";
                CPN_WORKING_STOP_TIME := Some "6pm" |} in
  gate env (mkDate (num_of_Z 0) Tuesday 3) <> AfterHoursSleep
  /\ (Tuesday <> Monday -> Tuesday <> Saturday ->
      gate env (mkDate (num_of_Z 0) Tuesday 3) = Polling).
Proof.
  intros env.
  apply (gate_unreadable_hours env (mkDate (num_of_Z 0) Tuesday 3)); reflexivity.
Defined.

Lemma must_authenticate_default_witness :
  let st := mkState (JStr "token") (Some (Fin 1000)) ∅ ∅ in
  (forall now, must_authenticate Scenario.env_offset_300 initial_state now = inr true)
  /\ ((must_authenticate default_env st (Fin 1801000) = inr true
       <-> (1000 + 1800000 <= 1801000)%Q)
      /\ exists b, must_authenticate default_env st (Fin 1801000) = inr b).
Proof.
  intros st. split.
  - apply (proj1 (must_authenticate_default Scenario.env_offset_300 initial_state)).
    reflexivity.
  - apply (proj2 (must_authenticate_default default_env st) eq_refl 1000%Q 1801000%Q).
    reflexivity.
Defined.

(** ** One invocation, and the run *)

Section PollAndRun.
Context `{Builtins}.
Variable env : ProcessEnv.
Variable slackUserIds : gmap string string.

Abbreviation poll := (pollChargePoint env slackUserIds).

Lemma authenticate_occupants (st st1 : State) (w : World) :
  authenticate env st w = inr st1 ->
  chargingUsers st1 = chargingUsers st /\ onHoldUsers st1 = onHoldUsers st.
Proof.
  unfold authenticate. destruct (must_authenticate env st (authCheckTime w)) as [e|[|]];
    [discriminate| |intros E; inversion E; auto].
  destruct (tokenResponse w); [discriminate|]. intros E. inversion E. auto.
Qed.

Lemma processSnapshot_session firstRun (st : State) (d : StationQueueDetail.t) :
  chargePointToken (fst (processSnapshot env slackUserIds firstRun st d))
    = chargePointToken st
  /\ lastAuth (fst (processSnapshot env slackUserIds firstRun st d)) = lastAuth st.
Proof. rewrite processSnapshot_eq. split; reflexivity. Qed.

(** The shapes an outcome can have. *)
Lemma poll_cases (firstRun : JsVal) (st : State) (w : World) :
  (gate env (dateNow w) <> Polling
   /\ poll firstRun st w =
      mkOutcome (gate env (dateNow w)) st []
        [mkTimer [] (JNum (num_of_Z
           match gate env (dateNow w) with
           | WeekendSleep => weekendSleepTime
           | _ => afterHoursSleepTime
           end))] Resolved)
  \/ (gate env (dateNow w) = Polling
      /\ exists error,
        (authenticate env st w = inl error
         /\ poll firstRun st w = mkOutcome Polling st [] [] (Rejected error))
        \/ (exists st1,
              authenticate env st w = inr st1
              /\ queueDetailResponse w = inl error
              /\ poll firstRun st w = mkOutcome Polling st1 [] [] (Rejected error)))
  \/ (gate env (dateNow w) = Polling
      /\ exists st1 data,
        authenticate env st w = inr st1
        /\ queueDetailResponse w = inr data
        /\ poll firstRun st w =
           mkOutcome Polling
             (fst (processSnapshot env slackUserIds firstRun st1 (stationQueueDetail data)))
             (snd (processSnapshot env slackUserIds firstRun st1 (stationQueueDetail data)))
             [mkTimer [] (pollingDelay env)] Resolved).
Proof.
  unfold pollChargePoint. destruct (gate env (dateNow w)) eqn:G.
  - left. split; [discriminate | reflexivity].
  - left. split; [discriminate | reflexivity].
  - right. destruct (authenticate env st w) as [e|st1].
    + left. split; [reflexivity|]. exists e. left. auto.
    + destruct (queueDetailResponse w) as [e|data]; simpl.
      * left. split; [reflexivity|]. exists e. right. exists st1. auto.
      * right. split; [reflexivity|]. exists st1, data.
        destruct (processSnapshot _ _ _ _ _). auto.
Qed.

(** X7. An invocation leaves exactly one timer when its promise resolves,
    and none when it is rejected; a rejected invocation has sent nothing. *)
Theorem poll_timer_iff_resolved (firstRun : JsVal) (st : State) (w : World) :
  let r := poll firstRun st w in
  (settled r = Resolved /\ exists d, timers r = [mkTimer [] d])
  \/ (exists error, settled r = Rejected error /\ timers r = [] /\ sent r = []).
Proof.
  cbv zeta.
  destruct (poll_cases firstRun st w)
    as [[_ ->]|[[_ [e [[_ ->]|[st1 (_ & _ & ->)]]]]|[_ (st1 & data & _ & _ & ->)]]];
    cbn [settled timers sent]; eauto 6.
Qed.

(** X8. An invocation that is skipped by the gate or whose promise is
    rejected sends nothing and leaves the occupants of both tracks as they
    were. *)
Theorem poll_unsuccessful_keeps_occupants (firstRun : JsVal) (st : State) (w : World) :
  gate_taken (poll firstRun st w) <> Polling
  \/ settled (poll firstRun st w) <> Resolved ->
  sent (poll firstRun st w) = []
  /\ chargingUsers (state_after (poll firstRun st w)) = chargingUsers st
  /\ onHoldUsers (state_after (poll firstRun st w)) = onHoldUsers st.
Proof.
  destruct (poll_cases firstRun st w)
    as [[_ ->]|[[_ [e [[_ ->]|[st1 (Ha & _ & ->)]]]]|[_ (st1 & data & _ & _ & ->)]]];
    cbn [settled timers sent gate_taken state_after]; intros Hbad; auto.
  - destruct (authenticate_occupants _ _ _ Ha). auto.
  - destruct Hbad; congruence.
Qed.

(** X9. An invocation with a truthy [firstRun] does what the same
    invocation without it does (the same gate, state, timer and
    settlement), and sends the same messages but the "has started
    charging" ones. *)
Theorem poll_firstRun_only_drops_started (firstRun : JsVal) (st : State) (w : World) :
  truthy firstRun = true ->
  let r := poll firstRun st w in
  let r0 := poll JUndefined st w in
  gate_taken r = gate_taken r0 /\ state_after r = state_after r0
  /\ timers r = timers r0 /\ settled r = settled r0
  /\ sent r = List.filter (fun msg => negb (is_started msg)) (sent r0).
Proof.
  intros Hfr. cbv zeta. unfold pollChargePoint.
  destruct (gate env (dateNow w)); try (repeat split; reflexivity).
  destruct (authenticate env st w) as [e|st1]; [repeat split; reflexivity|].
  destruct (getChargePointStationQueueDetail (queueDetailResponse w)) as [e|d];
    [repeat split; reflexivity|].
  destruct (firstRun_suppresses_started env slackUserIds firstRun st1 d Hfr) as [E1 E2].
  destruct (processSnapshot env slackUserIds firstRun st1 d),
           (processSnapshot env slackUserIds JUndefined st1 d).
  cbn [fst snd] in E1, E2. subst. repeat split; reflexivity.
Qed.

(** A property of the state that every invocation keeps holds after every
    invocation of a run. *)
Lemma run_invariant (I : State -> Prop) :
  (forall firstRun st w, I st -> I (state_after (poll firstRun st w))) ->
  forall ws args catch st,
    I st ->
    Forall (fun inv => I (state_after (outcome inv))) (run env slackUserIds args catch st ws).
Proof.
  intros Hstep. induction ws as [|w ws IH]; intros args catch st Hst; [constructor|].
  simpl. constructor; [apply Hstep, Hst|].
  destruct (timers (poll (first_param args) st w)); [constructor|].
  apply IH, Hstep, Hst.
Qed.

Lemma run_goes_on (ws : list World) :
  forall args catch st i inv,
    run env slackUserIds args catch st ws !! i = Some inv ->
    (is_Some (run env slackUserIds args catch st ws !! S i)
     <-> settled (outcome inv) = Resolved /\ S i < length ws).
Proof.
  induction ws as [|w ws IH]; intros args catch st i inv Hi; [discriminate|].
  simpl in Hi |- *.
  assert ((settled (poll (first_param args) st w) = Resolved
           /\ exists d, timers (poll (first_param args) st w) = [mkTimer [] d])
          \/ (exists error, settled (poll (first_param args) st w) = Rejected error
                            /\ timers (poll (first_param args) st w) = []
                            /\ sent (poll (first_param args) st w) = [])) as Hshape.
  { destruct (poll_cases (first_param args) st w)
      as [[_ ->]|[[_ [e [[_ ->]|[st1 (_ & _ & ->)]]]]|[_ (st1 & data & _ & _ & ->)]]];
      cbn [settled timers sent]; eauto 6. }
  destruct i as [|i]; simpl in Hi |- *.
  - inversion Hi; subst inv; clear Hi. cbn [outcome].
    destruct Hshape as [[Hs [d Ht]]|[e (Hs & Ht & _)]]; rewrite Ht, Hs.
    + destruct ws as [|w' ws]; simpl.
      * split; [intros [x Hx]; discriminate | intros [_ Hlt]; lia].
      * split; [intros _; split; [reflexivity | lia] | eauto].
    + split; [intros [x Hx]; discriminate | intros [Hr _]; discriminate].
  - destruct Hshape as [[Hs [d Ht]]|[e (Hs & Ht & _)]]; rewrite Ht in Hi |- *;
      [|discriminate].
    rewrite (IH _ _ _ _ _ Hi). split; intros [Hr Hlt]; (split; [exact Hr | lia]).
Qed.

(** X10. In a run of the program an invocation is followed by another one
    exactly when its promise resolves and the outside has more to offer:
    the first rejected promise, in the first invocation or in any later
    one, ends the run. *)
Theorem main_goes_on_while_resolved (ws : list World) (i : nat) (inv : Invocation) :
  main env slackUserIds ws !! i = Some inv ->
  (is_Some (main env slackUserIds ws !! S i)
   <-> settled (outcome inv) = Resolved /\ S i < length ws).
Proof. apply run_goes_on. Qed.
End PollAndRun.

Lemma poll_unsuccessful_keeps_occupants_witness :
  let st := mkState (JStr "token") (Some (num_of_Z 0)) {[ "1" := Scenario.userA ]} ∅ in
  let w := Scenario.world Saturday 10 (inr (JStr "token")) (inr (Scenario.message "7900")) in
  sent (pollChargePoint default_env Scenario.ids JUndefined st w) = []
  /\ chargingUsers (state_after (pollChargePoint default_env Scenario.ids JUndefined st w))
     = chargingUsers st
  /\ onHoldUsers (state_after (pollChargePoint default_env Scenario.ids JUndefined st w))
     = onHoldUsers st.
Proof.
  intros st w.
  apply (poll_unsuccessful_keeps_occupants default_env Scenario.ids JUndefined st w).
  left. discriminate.
Defined.

Lemma poll_firstRun_only_drops_started_witness :
  let w := Scenario.world Tuesday 10 (inr (JStr "token")) (inr (Scenario.message "7900")) in
  let r := pollChargePoint default_env Scenario.ids (JBool true) initial_state w in
  let r0 := pollChargePoint default_env Scenario.ids JUndefined initial_state w in
  gate_taken r = gate_taken r0 /\ state_after r = state_after r0
  /\ timers r = timers r0 /\ settled r = settled r0
  /\ sent r = List.filter (fun msg => negb (is_started msg)) (sent r0).
Proof.
  intros w.
  apply (poll_firstRun_only_drops_started default_env Scenario.ids (JBool true)
           initial_state w).
  reflexivity.
Defined.

Lemma main_goes_on_while_resolved_witness :
  let ws := [Scenario.world Tuesday 10 (inr (JStr "token")) (inl "ETIMEDOUT");
             Scenario.world Tuesday 10 (inr (JStr "token")) (inr (Scenario.message "1000"))] in
  exists inv,
    main default_env Scenario.ids ws !! 0 = Some inv
    /\ (is_Some (main default_env Scenario.ids ws !! 1)
        <-> settled (outcome inv) = Resolved /\ 1 < length ws).
Proof.
  intros ws. eexists. split; [reflexivity|].
  apply (main_goes_on_while_resolved default_env Scenario.ids ws 0). reflexivity.
Defined.

(** ** What holds of every state of a run *)

Lemma strict_eq_string (v : JsVal) (s : string) :
  strict_eq v (JStr s) = true -> v = JStr s.
Proof.
  destruct v; simpl; try discriminate. intros E. apply String.eqb_eq in E. now subst.
Qed.

Section StateInvariants.
Context `{Builtins}.
Variable env : ProcessEnv.
Variable slackUserIds : gmap string string.

Abbreviation ckey u := (ToPropertyKey (ChargingUser.outlet u)).
Abbreviation hkey u := (ToPropertyKey (OnHoldUser.outlet u)).
Abbreviation pcu := (processChargingUser env slackUserIds).
Abbreviation phu := (processOnHoldUser slackUserIds).

Lemma authenticate_dated (st st1 : State) (w : World) :
  authenticate env st w = inr st1 -> session_dated st -> session_dated st1.
Proof.
  unfold authenticate. destruct (must_authenticate env st (authCheckTime w)) as [e|[|]];
    [discriminate| |intros E; inversion E; auto].
  destruct (tokenResponse w); [discriminate|]. intros E _. inversion E.
  intros _. cbn. eauto.
Qed.

Lemma poll_dated firstRun (st : State) (w : World) :
  session_dated st -> session_dated (state_after (pollChargePoint env slackUserIds firstRun st w)).
Proof.
  intros Hst.
  destruct (poll_cases env slackUserIds firstRun st w)
    as [[_ ->]|[[_ [e [[_ ->]|[st1 (Ha & _ & ->)]]]]|[_ (st1 & data & Ha & _ & ->)]]];
    cbn [state_after]; auto.
  - apply (authenticate_dated _ _ _ Ha Hst).
  - pose proof (authenticate_dated _ _ _ Ha Hst) as H1. unfold session_dated in *.
    destruct (processSnapshot_session env slackUserIds firstRun st1 (stationQueueDetail data))
      as [-> ->]. exact H1.
Qed.

Lemma dated_must_authenticate (st : State) (now : num) :
  session_dated st -> exists b, must_authenticate env st now = inr b.
Proof.
  unfold session_dated, must_authenticate. intros Hst.
  destruct (truthy (chargePointToken st)); cbn [negb]; [|eauto].
  destruct (Hst eq_refl) as [t ->]. eauto.
Qed.

(** X11. In a run of the program the condition of line 302 can always be
    evaluated: whenever a truthy token is held, [lastAuth] has been set, so
    [lastAuth.getTime()] does not throw, at the start and after every
    invocation. *)
Theorem line_302_never_throws (ws : list World) (now : num) :
  (exists b, must_authenticate env initial_state now = inr b)
  /\ Forall (fun inv =>
              exists b, must_authenticate env (state_after (outcome inv)) now = inr b)
            (main env slackUserIds ws).
Proof.
  split; [apply dated_must_authenticate; intros E; discriminate|].
  eapply List.Forall_impl;
    [|apply (run_invariant env slackUserIds session_dated
               (fun fr st w => poll_dated fr st w) ws [JBool true] true initial_state)].
  - intros inv Hinv. apply dated_must_authenticate, Hinv.
  - intros E. discriminate.
Qed.

(** The outlet keys. *)
Lemma charging_step_filed firstRun m t (store : gmap string ChargingUser.t) user :
  (forall o c, store !! o = Some c -> ckey c = o) ->
  forall o c, fst (pcu firstRun m t store user) !! o = Some c -> ckey c = o.
Proof.
  intros Hinv o c. destruct (String.string_dec o (ckey user)) as [->|N].
  - rewrite processChargingUser_own. intros E. inversion E as [Ec]. clear E Ec.
    assert (ckey (charging_occupant (store !! ckey user) user) = ckey user) as Hocc.
    { unfold charging_occupant. destruct (store !! ckey user) as [c0|] eqn:Hs;
        [|reflexivity].
      destruct (charging_changed (Some c0) user); [reflexivity | apply (Hinv _ _ Hs)]. }
    destruct (exit_due _ _ _ _ _); exact Hocc.
  - rewrite (processChargingUser_other _ _ _ _ _ _ _ _ N). apply Hinv.
Qed.

Lemma onHold_step_filed (store : gmap string OnHoldUser.t) user :
  (forall o c, store !! o = Some c -> hkey c = o) ->
  forall o c, fst (phu store user) !! o = Some c -> hkey c = o.
Proof.
  intros Hinv o c. destruct (String.string_dec o (hkey user)) as [->|N].
  - rewrite processOnHoldUser_own. intros E. inversion E as [Ec]. clear E Ec.
    assert (hkey (onHold_occupant (store !! hkey user) user) = hkey user) as Hocc.
    { unfold onHold_occupant. destruct (store !! hkey user) as [c0|] eqn:Hs;
        [|reflexivity].
      destruct (onHold_changed (Some c0) user); [reflexivity | apply (Hinv _ _ Hs)]. }
    destruct (turn_due _ _); exact Hocc.
  - rewrite (processOnHoldUser_other _ _ _ _ N). apply Hinv.
Qed.

Lemma processSnapshot_filed firstRun (st : State) (d : StationQueueDetail.t) :
  filed_under_outlet st ->
  filed_under_outlet (fst (processSnapshot env slackUserIds firstRun st d)).
Proof.
  intros [Hc Hh]. rewrite processSnapshot_eq. cbv zeta. cbn [fst]. split;
    cbn [chargingUsers onHoldUsers].
  - apply (forEach_invariant (pcu firstRun _ _)
             (fun s : gmap string ChargingUser.t => forall o c, s !! o = Some c -> ckey c = o)
             (fun _ => True)); [|exact Hc].
    intros s x _ Hs. split; [apply charging_step_filed, Hs | apply Forall_trivial_sent].
  - apply (forEach_invariant phu
             (fun s : gmap string OnHoldUser.t => forall o c, s !! o = Some c -> hkey c = o)
             (fun _ => True)); [|exact Hh].
    intros s x _ Hs. split; [apply onHold_step_filed, Hs | apply Forall_trivial_sent].
Qed.

Lemma poll_filed firstRun (st : State) (w : World) :
  filed_under_outlet st ->
  filed_under_outlet (state_after (pollChargePoint env slackUserIds firstRun st w)).
Proof.
  intros Hst.
  destruct (poll_cases env slackUserIds firstRun st w)
    as [[_ ->]|[[_ [e [[_ ->]|[st1 (Ha & _ & ->)]]]]|[_ (st1 & data & Ha & _ & ->)]]];
    cbn [state_after]; auto;
    destruct (authenticate_occupants env _ _ _ Ha) as [E1 E2];
    assert (filed_under_outlet st1) as H1
      by (unfold filed_under_outlet; rewrite E1, E2; exact Hst);
    [exact H1 | apply processSnapshot_filed, H1].
Qed.

(** X12. After every invocation of a run, on both tracks, each stored
    record lies under the property key of its own [outlet] field. *)
Theorem occupants_filed_under_their_outlet (ws : list World) :
  Forall (fun inv => filed_under_outlet (state_after (outcome inv)))
         (main env slackUserIds ws).
Proof.
  apply (run_invariant env slackUserIds filed_under_outlet
           (fun fr st w => poll_filed fr st w) ws [JBool true] true initial_state).
  split; intros o c E; cbn [initial_state chargingUsers onHoldUsers] in E;
    rewrite lookup_empty in E; discriminate.
Qed.

(** The flags. *)
Lemma exit_due_allows m t c :
  exit_due env slackUserIds m t c = true ->
  ChargingUser.status c = JStr "CHARGING"
  /\ is_Some (plain_get slackUserIds (ToPropertyKey (ChargingUser.name c))).
Proof.
  unfold exit_due. rewrite !andb_true_iff. intros [[[Hs Hm] _] _].
  split; [apply strict_eq_string, Hs | apply bool_decide_eq_true in Hm; exact Hm].
Qed.

Lemma turn_due_allows c :
  turn_due slackUserIds c = true ->
  OnHoldUser.status c = JStr "ACCEPT_PENDING"
  /\ is_Some (plain_get slackUserIds (ToPropertyKey (OnHoldUser.name c))).
Proof.
  unfold turn_due. rewrite !andb_true_iff. intros [[Hs Hm] _].
  split; [apply strict_eq_string, Hs | apply bool_decide_eq_true in Hm; exact Hm].
Qed.

Lemma charging_step_earned firstRun m t (store : gmap string ChargingUser.t) user :
  ChargingUser.exitNotified user = false ->
  (forall o c, store !! o = Some c -> ChargingUser.exitNotified c = true ->
               ChargingUser.status c = JStr "CHARGING"
               /\ is_Some (plain_get slackUserIds (ToPropertyKey (ChargingUser.name c)))) ->
  forall o c, fst (pcu firstRun m t store user) !! o = Some c ->
              ChargingUser.exitNotified c = true ->
              ChargingUser.status c = JStr "CHARGING"
              /\ is_Some (plain_get slackUserIds (ToPropertyKey (ChargingUser.name c))).
Proof.
  intros Hfresh Hinv o c. destruct (String.string_dec o (ckey user)) as [->|N].
  - rewrite processChargingUser_own.
    destruct (exit_due env slackUserIds m t _) eqn:D; intros E; inversion E; subst c; clear E.
    + intros _. apply (exit_due_allows _ _ _ D).
    + unfold charging_occupant. destruct (store !! ckey user) as [c0|] eqn:Hs.
      * destruct (charging_changed (Some c0) user); [congruence | apply (Hinv _ _ Hs)].
      * congruence.
  - rewrite (processChargingUser_other _ _ _ _ _ _ _ _ N). apply Hinv.
Qed.

Lemma onHold_step_earned (store : gmap string OnHoldUser.t) user :
  OnHoldUser.waitingNotified user = false ->
  (forall o c, store !! o = Some c -> OnHoldUser.waitingNotified c = true ->
               OnHoldUser.status c = JStr "ACCEPT_PENDING"
               /\ is_Some (plain_get slackUserIds (ToPropertyKey (OnHoldUser.name c)))) ->
  forall o c, fst (phu store user) !! o = Some c ->
              OnHoldUser.waitingNotified c = true ->
              OnHoldUser.status c = JStr "ACCEPT_PENDING"
              /\ is_Some (plain_get slackUserIds (ToPropertyKey (OnHoldUser.name c))).
Proof.
  intros Hfresh Hinv o c. destruct (String.string_dec o (hkey user)) as [->|N].
  - rewrite processOnHoldUser_own.
    destruct (turn_due slackUserIds _) eqn:D; intros E; inversion E; subst c; clear E.
    + intros _. apply (turn_due_allows _ D).
    + unfold onHold_occupant. destruct (store !! hkey user) as [c0|] eqn:Hs.
      * destruct (onHold_changed (Some c0) user); [congruence | apply (Hinv _ _ Hs)].
      * congruence.
  - rewrite (processOnHoldUser_other _ _ _ _ N). apply Hinv.
Qed.

Lemma stationQueueDetail_fresh (data : Message.t) :
  (forall u, In u (StationQueueDetail.chargingUsers (stationQueueDetail data)) ->
             ChargingUser.exitNotified u = false)
  /\ (forall u, In u (StationQueueDetail.onHoldUsers (stationQueueDetail data)) ->
                OnHoldUser.waitingNotified u = false).
Proof.
  unfold stationQueueDetail. cbn [StationQueueDetail.chargingUsers
    StationQueueDetail.onHoldUsers]. split; intros u Hu.
  - apply List.filter_In in Hu. destruct Hu as [Hu _].
    apply List.in_map_iff in Hu. destruct Hu as [r [<- _]]. reflexivity.
  - apply List.in_map_iff in Hu. destruct Hu as [r [<- _]]. reflexivity.
Qed.

Lemma processSnapshot_earned firstRun (st : State) (d : StationQueueDetail.t) :
  (forall u, In u (StationQueueDetail.chargingUsers d) ->
             ChargingUser.exitNotified u = false) ->
  (forall u, In u (StationQueueDetail.onHoldUsers d) ->
             OnHoldUser.waitingNotified u = false) ->
  flags_earned slackUserIds st ->
  flags_earned slackUserIds (fst (processSnapshot env slackUserIds firstRun st d)).
Proof.
  intros Hfc Hfh [Hc Hh]. rewrite processSnapshot_eq. cbv zeta. cbn [fst]. split;
    cbn [chargingUsers onHoldUsers].
  - apply (forEach_invariant (pcu firstRun _ _)
             (fun s : gmap string ChargingUser.t =>
                forall o c, s !! o = Some c -> ChargingUser.exitNotified c = true ->
                            ChargingUser.status c = JStr "CHARGING"
                            /\ is_Some (plain_get slackUserIds (ToPropertyKey (ChargingUser.name c))))
             (fun _ => True)); [|exact Hc].
    intros s x Hx Hs. split; [|apply Forall_trivial_sent].
    apply charging_step_earned; [apply Hfc, Hx | exact Hs].
  - apply (forEach_invariant phu
             (fun s : gmap string OnHoldUser.t =>
                forall o c, s !! o = Some c -> OnHoldUser.waitingNotified c = true ->
                            OnHoldUser.status c = JStr "ACCEPT_PENDING"
                            /\ is_Some (plain_get slackUserIds (ToPropertyKey (OnHoldUser.name c))))
             (fun _ => True)); [|exact Hh].
    intros s x Hx Hs. split; [|apply Forall_trivial_sent].
    apply onHold_step_earned; [apply Hfh, Hx | exact Hs].
Qed.

Lemma poll_earned firstRun (st : State) (w : World) :
  flags_earned slackUserIds st ->
  flags_earned slackUserIds (state_after (pollChargePoint env slackUserIds firstRun st w)).
Proof.
  intros Hst.
  destruct (poll_cases env slackUserIds firstRun st w)
    as [[_ ->]|[[_ [e [[_ ->]|[st1 (Ha & _ & ->)]]]]|[_ (st1 & data & Ha & _ & ->)]]];
    cbn [state_after]; auto;
    destruct (authenticate_occupants env _ _ _ Ha) as [E1 E2];
    assert (flags_earned slackUserIds st1) as H1
      by (unfold flags_earned; rewrite E1, E2; exact Hst);
    [exact H1|].
  destruct (stationQueueDetail_fresh data) as [Hfc Hfh].
  apply processSnapshot_earned; assumption.
Qed.

(** X13. After every invocation of a run, a stored record whose flag is set
    has what the notification asks for: [exitNotified] is found only on an
    occupant with status CHARGING, [waitingNotified] only on one with status
    ACCEPT_PENDING, and in both cases the read of [slackUserIds] under the
    name of the occupant finds something, an entry of the mapping or a
    member of [Object.prototype]. *)
Theorem set_flags_are_earned (ws : list World) :
  Forall (fun inv => flags_earned slackUserIds (state_after (outcome inv)))
         (main env slackUserIds ws).
Proof.
  apply (run_invariant env slackUserIds (flags_earned slackUserIds)
           (fun fr st w => poll_earned fr st w) ws [JBool true] true initial_state).
  split; intros o c E; cbn [initial_state chargingUsers onHoldUsers] in E;
    rewrite lookup_empty in E; discriminate.
Qed.
End StateInvariants.

(** ** What a snapshot does to the occupants *)

Lemma forEach_app {S A : Type} (f : S -> A -> S * list Sent) (s : S) (l1 l2 : list A) :
  forEach f s (l1 ++ l2) =
  (fst (forEach f (fst (forEach f s l1)) l2),
   snd (forEach f s l1) ++ snd (forEach f (fst (forEach f s l1)) l2)).
Proof.
  revert s. induction l1 as [|x l1 IH]; intros s.
  - simpl. now destruct (forEach f s l2).
  - rewrite <- app_comm_cons, !forEach_cons, IH. cbn [fst snd]. now rewrite app_assoc.
Qed.

Section SnapshotProperties.
Context `{Builtins}.
Variable env : ProcessEnv.
Variable slackUserIds : gmap string string.

Abbreviation ckey u := (ToPropertyKey (ChargingUser.outlet u)).
Abbreviation hkey u := (ToPropertyKey (OnHoldUser.outlet u)).
Abbreviation pcu := (processChargingUser env slackUserIds).
Abbreviation phu := (processOnHoldUser slackUserIds).

Lemma charging_loop_dom firstRun m t (l : list ChargingUser.t) :
  forall store : gmap string ChargingUser.t,
    dom (fst (forEach (pcu firstRun m t) store l))
    = dom store ∪ list_to_set (List.map (fun u => ckey u) l).
Proof.
  induction l as [|x l IH]; intros store.
  - simpl. now rewrite (right_id_L ∅ (∪)).
  - rewrite forEach_cons. cbn [fst]. rewrite IH, processChargingUser_eq. cbn [fst].
    rewrite dom_insert_L. cbn [List.map list_to_set].
    now rewrite (comm_L (∪) {[_]} (dom store)), (assoc_L (∪)).
Qed.

Lemma onHold_loop_dom (l : list OnHoldUser.t) :
  forall store : gmap string OnHoldUser.t,
    dom (fst (forEach phu store l))
    = dom store ∪ list_to_set (List.map (fun u => hkey u) l).
Proof.
  induction l as [|x l IH]; intros store.
  - simpl. now rewrite (right_id_L ∅ (∪)).
  - rewrite forEach_cons. cbn [fst]. rewrite IH, processOnHoldUser_eq. cbn [fst].
    rewrite dom_insert_L. cbn [List.map list_to_set].
    now rewrite (comm_L (∪) {[_]} (dom store)), (assoc_L (∪)).
Qed.

(** X14. Processing a snapshot never empties an outlet: on each track the
    occupied outlets afterwards are those occupied before and those of the
    entries of the snapshot. An outlet that the station stops reporting
    keeps its last occupant. *)
Theorem occupied_outlets_only_grow (firstRun : JsVal) (st : State)
    (d : StationQueueDetail.t) :
  let st' := fst (processSnapshot env slackUserIds firstRun st d) in
  dom (chargingUsers st')
  = dom (chargingUsers st)
    ∪ list_to_set (List.map (fun u => ckey u) (StationQueueDetail.chargingUsers d))
  /\ dom (onHoldUsers st')
     = dom (onHoldUsers st)
       ∪ list_to_set (List.map (fun u => hkey u) (StationQueueDetail.onHoldUsers d)).
Proof.
  cbv zeta. rewrite processSnapshot_eq. cbv zeta. cbn [fst chargingUsers onHoldUsers].
  split; [apply charging_loop_dom | apply onHold_loop_dom].
Qed.

Lemma charging_loop_frame firstRun m t o (l : list ChargingUser.t) :
  (forall u, In u l -> ckey u <> o) ->
  forall store : gmap string ChargingUser.t,
    fst (forEach (pcu firstRun m t) store l) !! o = store !! o
    /\ Forall (fun msg => at_outlet msg <> o) (snd (forEach (pcu firstRun m t) store l)).
Proof.
  intros Hl store.
  apply (forEach_invariant (pcu firstRun m t)
           (fun s : gmap string ChargingUser.t => s !! o = store !! o)
           (fun msg => at_outlet msg <> o) l); [|reflexivity].
  intros s x Hx Hs. split.
  - rewrite processChargingUser_other; [exact Hs|]. intros E. apply (Hl x Hx). now symmetry.
  - eapply List.Forall_impl; [|apply processChargingUser_outlet].
    intros msg [-> _]. apply (Hl x Hx).
Qed.

Lemma onHold_loop_frame o (l : list OnHoldUser.t) :
  (forall u, In u l -> hkey u <> o) ->
  forall store : gmap string OnHoldUser.t,
    fst (forEach phu store l) !! o = store !! o
    /\ Forall (fun msg => at_outlet msg <> o) (snd (forEach phu store l)).
Proof.
  intros Hl store.
  apply (forEach_invariant phu
           (fun s : gmap string OnHoldUser.t => s !! o = store !! o)
           (fun msg => at_outlet msg <> o) l); [|reflexivity].
  intros s x Hx Hs. split.
  - rewrite processOnHoldUser_other; [exact Hs|]. intros E. apply (Hl x Hx). now symmetry.
  - eapply List.Forall_impl; [|apply processOnHoldUser_outlet].
    intros msg [-> _]. apply (Hl x Hx).
Qed.

(** X15. An outlet for which a snapshot has no entry, on either track, is
    left alone: its two slots are what they were and no message is sent
    from it. In particular no message tells that an outlet was vacated. *)
Theorem outlet_absent_from_snapshot_untouched (firstRun : JsVal) (st : State)
    (d : StationQueueDetail.t) (o : string) :
  (forall u, In u (StationQueueDetail.chargingUsers d) -> ckey u <> o) ->
  (forall u, In u (StationQueueDetail.onHoldUsers d) -> hkey u <> o) ->
  let r := processSnapshot env slackUserIds firstRun st d in
  chargingUsers (fst r) !! o = chargingUsers st !! o
  /\ onHoldUsers (fst r) !! o = onHoldUsers st !! o
  /\ Forall (fun msg => at_outlet msg <> o) (snd r).
Proof.
  intros Hc Hh. cbv zeta. rewrite processSnapshot_eq. cbv zeta.
  cbn [fst snd chargingUsers onHoldUsers].
  destruct (charging_loop_frame firstRun (StationQueueDetail.maxChargingTime d)
              (StationQueueDetail.currTime d) o _ Hc (chargingUsers st)) as [E1 F1].
  destruct (onHold_loop_frame o _ Hh (onHoldUsers st)) as [E2 F2].
  split; [exact E1|]. split; [exact E2|]. apply Forall_app. split; assumption.
Qed.

(** X16. After a snapshot, the charging slot of an outlet holds the
    subscriber of the last entry that the snapshot has for that outlet (an
    id that equals itself, as every id read from JSON does). *)
Theorem last_entry_holds_the_outlet (firstRun : JsVal) (st : State)
    (d : StationQueueDetail.t) (l1 l2 : list ChargingUser.t) (u : ChargingUser.t) :
  StationQueueDetail.chargingUsers d = l1 ++ u :: l2 ->
  (forall v, In v l2 -> ckey v <> ckey u) ->
  strict_eq (ChargingUser.id u) (ChargingUser.id u) = true ->
  exists c,
    chargingUsers (fst (processSnapshot env slackUserIds firstRun st d)) !! ckey u = Some c
    /\ strict_eq (ChargingUser.id c) (ChargingUser.id u) = true.
Proof.
  intros Hd Hl2 Hself. rewrite processSnapshot_eq. cbv zeta. cbn [fst chargingUsers].
  rewrite Hd, forEach_app. cbn [fst]. rewrite forEach_cons. cbn [fst].
  set (m := StationQueueDetail.maxChargingTime d).
  set (t := StationQueueDetail.currTime d).
  set (s1 := fst (forEach (pcu firstRun m t) (chargingUsers st) l1)).
  destruct (charging_loop_frame firstRun m t (ckey u) l2 Hl2
              (fst (pcu firstRun m t s1 u))) as [-> _].
  rewrite processChargingUser_own.
  assert (strict_eq (ChargingUser.id (charging_occupant (s1 !! ckey u) u))
                    (ChargingUser.id u) = true) as Hocc.
  { unfold charging_occupant, charging_changed. destruct (s1 !! ckey u) as [c0|];
      [|exact Hself].
    destruct (strict_eq (ChargingUser.id c0) (ChargingUser.id u)) eqn:E;
      [exact E | exact Hself]. }
  destruct (exit_due _ _ _ _ _); eexists; split; try reflexivity; exact Hocc.
Qed.

(** X17. A snapshot in which the station's time limit does not read as a
    number sends no "almost up" message, whatever the offset. *)
Theorem unreadable_limit_sends_no_almost_up (firstRun : JsVal) (st : State)
    (d : StationQueueDetail.t) :
  StationQueueDetail.maxChargingTime d = NaN ->
  Forall (fun msg => is_almost_up msg = false)
         (snd (processSnapshot env slackUserIds firstRun st d)).
Proof.
  intros Hm. rewrite processSnapshot_eq. cbv zeta. cbn [snd]. rewrite Hm.
  apply Forall_app. split.
  - apply forEach_sent. intros s x. rewrite processChargingUser_eq. cbn [snd].
    assert (exit_due env slackUserIds NaN (StationQueueDetail.currTime d)
              (charging_occupant (s !! ckey x) x) = false) as ->.
    { unfold exit_due, js_le.
      destruct (ChargingUser.startTime (charging_occupant (s !! ckey x) x));
        cbn [num_add num_le]; now rewrite andb_false_r. }
    rewrite app_nil_r. destruct (_ && _); repeat constructor.
  - eapply List.Forall_impl; [|apply onHold_loop_kinds]. intros msg [_ E]. exact E.
Qed.

(** X18. With no warning offset configured: for an entry that finds its
    subscriber stored on its outlet as charging, with a mapped name and the
    flag not set, the "almost up" message is sent exactly when start time
    plus limit is at most the station's time plus 300 seconds. *)
Theorem almost_up_default_offset (firstRun : JsVal)
    (store : gmap string ChargingUser.t) (user c : ChargingUser.t) (s mx cur : Q) :
  store !! ckey user = Some c ->
  strict_eq (ChargingUser.id c) (ChargingUser.id user) = true ->
  ChargingUser.status c = JStr "CHARGING" ->
  is_Some (slackUserIds !! ToPropertyKey (ChargingUser.name c)) ->
  ChargingUser.exitNotified c = false ->
  ChargingUser.startTime c = Fin s ->
  (Exists (fun msg => is_almost_up msg = true)
          (snd (processChargingUser default_env slackUserIds firstRun
                  (Fin mx) (Fin cur) store user))
   <-> (s + mx <= cur + 300)%Q).
Proof.
  intros Hc Hid Hst Hmap Hflag Hs.
  apply (almost_up_iff_numeric_offset default_env slackUserIds firstRun store user c
           s mx cur (inject_Z 300)); auto.
Qed.

(** *** The same snapshot again *)

(** A loop over entries that each find their subscriber on their outlet,
    with nothing due, changes nothing and sends nothing. *)
Lemma charging_loop_silent firstRun m t (store : gmap string ChargingUser.t)
    (l : list ChargingUser.t) :
  (forall u, In u l ->
             exists c, store !! ckey u = Some c
                       /\ strict_eq (ChargingUser.id c) (ChargingUser.id u) = true
                       /\ exit_due env slackUserIds m t c = false) ->
  forEach (pcu firstRun m t) store l = (store, []).
Proof.
  induction l as [|x l IH]; intros Hl; [reflexivity|].
  rewrite forEach_cons.
  destruct (Hl x (or_introl eq_refl)) as (c & Hc & Hid & Hdue).
  assert (pcu firstRun m t store x = (store, [])) as Hx.
  { rewrite processChargingUser_eq, Hc.
    destruct (charging_occupant_same c x Hid) as [-> ->]. rewrite Hdue.
    cbn [andb app]. now rewrite (insert_id _ _ _ Hc). }
  rewrite Hx. cbn [fst snd]. rewrite (IH (fun u Hu => Hl u (or_intror Hu))). reflexivity.
Qed.

Lemma onHold_loop_silent (store : gmap string OnHoldUser.t) (l : list OnHoldUser.t) :
  (forall u, In u l ->
             exists c, store !! hkey u = Some c
                       /\ strict_eq (OnHoldUser.id c) (OnHoldUser.id u) = true
                       /\ turn_due slackUserIds c = false) ->
  forEach phu store l = (store, []).
Proof.
  induction l as [|x l IH]; intros Hl; [reflexivity|].
  rewrite forEach_cons.
  destruct (Hl x (or_introl eq_refl)) as (c & Hc & Hid & Hdue).
  assert (phu store x = (store, [])) as Hx.
  { rewrite processOnHoldUser_eq, Hc.
    destruct (onHold_occupant_same c x Hid) as [_ ->]. rewrite Hdue.
    now rewrite (insert_id _ _ _ Hc). }
  rewrite Hx. cbn [fst snd]. rewrite (IH (fun u Hu => Hl u (or_intror Hu))). reflexivity.
Qed.

(** After a loop over entries of pairwise different outlets, each entry
    finds its subscriber on its outlet, with nothing due any more. *)
Lemma charging_loop_settles firstRun m t (l : list ChargingUser.t) :
  List.NoDup (List.map (fun u => ckey u) l) ->
  (forall u, In u l -> strict_eq (ChargingUser.id u) (ChargingUser.id u) = true) ->
  forall (store : gmap string ChargingUser.t) u,
    In u l ->
    exists c, fst (forEach (pcu firstRun m t) store l) !! ckey u = Some c
              /\ strict_eq (ChargingUser.id c) (ChargingUser.id u) = true
              /\ exit_due env slackUserIds m t c = false.
Proof.
  induction l as [|x l IH]; intros Hnd Hself store u Hu; [destruct Hu|].
  cbn [List.map] in Hnd. apply List.NoDup_cons_iff in Hnd. destruct Hnd as [Hx Hnd].
  rewrite forEach_cons. cbn [fst]. destruct Hu as [<-|Hu].
  - assert (forall v, In v l -> ckey v <> ckey x) as Hl.
    { intros v Hv E. apply Hx. rewrite <- E.
      apply (List.in_map (fun u => ckey u) l v Hv). }
    destruct (charging_loop_frame firstRun m t (ckey x) l Hl
                (fst (pcu firstRun m t store x))) as [-> _].
    rewrite processChargingUser_own.
    set (c := charging_occupant (store !! ckey x) x).
    assert (strict_eq (ChargingUser.id c) (ChargingUser.id x) = true) as Hocc.
    { unfold c, charging_occupant, charging_changed.
      destruct (store !! ckey x) as [c0|]; [|apply Hself; now left].
      destruct (strict_eq (ChargingUser.id c0) (ChargingUser.id x)) eqn:E;
        [exact E | apply Hself; now left]. }
    destruct (exit_due env slackUserIds m t c) eqn:D; eexists;
      (split; [reflexivity|]); (split; [exact Hocc|]);
      [apply exit_due_notified | exact D].
  - apply IH; [exact Hnd | intros v Hv; apply Hself; now right | exact Hu].
Qed.

Lemma onHold_loop_settles (l : list OnHoldUser.t) :
  List.NoDup (List.map (fun u => hkey u) l) ->
  (forall u, In u l -> strict_eq (OnHoldUser.id u) (OnHoldUser.id u) = true) ->
  forall (store : gmap string OnHoldUser.t) u,
    In u l ->
    exists c, fst (forEach phu store l) !! hkey u = Some c
              /\ strict_eq (OnHoldUser.id c) (OnHoldUser.id u) = true
              /\ turn_due slackUserIds c = false.
Proof.
  induction l as [|x l IH]; intros Hnd Hself store u Hu; [destruct Hu|].
  cbn [List.map] in Hnd. apply List.NoDup_cons_iff in Hnd. destruct Hnd as [Hx Hnd].
  rewrite forEach_cons. cbn [fst]. destruct Hu as [<-|Hu].
  - assert (forall v, In v l -> hkey v <> hkey x) as Hl.
    { intros v Hv E. apply Hx. rewrite <- E.
      apply (List.in_map (fun u => hkey u) l v Hv). }
    destruct (onHold_loop_frame (hkey x) l Hl (fst (phu store x))) as [-> _].
    rewrite processOnHoldUser_own.
    set (c := onHold_occupant (store !! hkey x) x).
    assert (strict_eq (OnHoldUser.id c) (OnHoldUser.id x) = true) as Hocc.
    { unfold c, onHold_occupant, onHold_changed.
      destruct (store !! hkey x) as [c0|]; [|apply Hself; now left].
      destruct (strict_eq (OnHoldUser.id c0) (OnHoldUser.id x)) eqn:E;
        [exact E | apply Hself; now left]. }
    destruct (turn_due slackUserIds c) eqn:D; eexists;
      (split; [reflexivity|]); (split; [exact Hocc|]);
      [apply turn_due_notified | exact D].
  - apply IH; [exact Hnd | intros v Hv; apply Hself; now right | exact Hu].
Qed.

(** X19. Polling an unchanged station is silent: when a snapshot has at
    most one entry per outlet on each track (and ids that equal
    themselves), processing the same snapshot once more, first run or not,
    sends nothing and leaves the state as the first processing left it. *)
Theorem same_snapshot_again_is_silent (firstRun again : JsVal) (st : State)
    (d : StationQueueDetail.t) :
  List.NoDup (List.map (fun u => ckey u) (StationQueueDetail.chargingUsers d)) ->
  List.NoDup (List.map (fun u => hkey u) (StationQueueDetail.onHoldUsers d)) ->
  (forall u, In u (StationQueueDetail.chargingUsers d) ->
             strict_eq (ChargingUser.id u) (ChargingUser.id u) = true) ->
  (forall u, In u (StationQueueDetail.onHoldUsers d) ->
             strict_eq (OnHoldUser.id u) (OnHoldUser.id u) = true) ->
  let st1 := fst (processSnapshot env slackUserIds firstRun st d) in
  processSnapshot env slackUserIds again st1 d = (st1, []).
Proof.
  intros Hndc Hndh Hc Hh. cbv zeta.
  rewrite (processSnapshot_eq env slackUserIds again). cbv zeta.
  rewrite (processSnapshot_eq env slackUserIds firstRun). cbv zeta.
  cbn [fst chargingUsers onHoldUsers chargePointToken lastAuth].
  rewrite charging_loop_silent
    by (intros u Hu; apply charging_loop_settles; assumption).
  rewrite onHold_loop_silent
    by (intros u Hu; apply onHold_loop_settles; assumption).
  reflexivity.
Qed.

(** *** The order of the entries *)

(** Two iterations on different outlets do not see each other. *)
Lemma charging_step_commute firstRun m t (s : gmap string ChargingUser.t) u v :
  ckey u <> ckey v ->
  fst (pcu firstRun m t (fst (pcu firstRun m t s u)) v)
  = fst (pcu firstRun m t (fst (pcu firstRun m t s v)) u)
  /\ snd (pcu firstRun m t (fst (pcu firstRun m t s u)) v) = snd (pcu firstRun m t s v)
  /\ snd (pcu firstRun m t (fst (pcu firstRun m t s v)) u) = snd (pcu firstRun m t s u).
Proof.
  intros N. rewrite !processChargingUser_eq. cbn [fst snd].
  rewrite ?processChargingUser_eq. cbn [fst snd].
  rewrite (lookup_insert_ne _ (ckey u) (ckey v)) by exact N.
  rewrite (lookup_insert_ne _ (ckey v) (ckey u)) by (intros E; apply N; now symmetry).
  split; [|split; reflexivity].
  apply insert_insert_ne. intros E; apply N; now symmetry.
Qed.

Lemma onHold_step_commute (s : gmap string OnHoldUser.t) u v :
  hkey u <> hkey v ->
  fst (phu (fst (phu s u)) v) = fst (phu (fst (phu s v)) u)
  /\ snd (phu (fst (phu s u)) v) = snd (phu s v)
  /\ snd (phu (fst (phu s v)) u) = snd (phu s u).
Proof.
  intros N. rewrite !processOnHoldUser_eq. cbn [fst snd].
  rewrite ?processOnHoldUser_eq. cbn [fst snd].
  rewrite (lookup_insert_ne _ (hkey u) (hkey v)) by exact N.
  rewrite (lookup_insert_ne _ (hkey v) (hkey u)) by (intros E; apply N; now symmetry).
  split; [|split; reflexivity].
  apply insert_insert_ne. intros E; apply N; now symmetry.
Qed.

(** A loop whose iterations commute when their keys differ gives the same
    store, and the same messages up to their order, on any reordering of
    entries with pairwise different keys. *)
Lemma forEach_permutation {S A : Type} (f : S -> A -> S * list Sent) (key : A -> string) :
  (forall s u v, key u <> key v ->
                 fst (f (fst (f s u)) v) = fst (f (fst (f s v)) u)
                 /\ snd (f (fst (f s u)) v) = snd (f s v)
                 /\ snd (f (fst (f s v)) u) = snd (f s u)) ->
  forall l l' : list A,
    Permutation l l' ->
    List.NoDup (List.map key l) ->
    forall s, fst (forEach f s l) = fst (forEach f s l')
              /\ Permutation (snd (forEach f s l)) (snd (forEach f s l')).
Proof.
  intros Hcomm l l' Hperm.
  induction Hperm as [|x l l' Hperm IH|x y l|l l' l'' Hp1 IH1 Hp2 IH2]; intros Hnd s.
  - split; [reflexivity | constructor].
  - cbn [List.map] in Hnd. apply List.NoDup_cons_iff in Hnd. destruct Hnd as [_ Hnd].
    rewrite !forEach_cons. cbn [fst snd].
    destruct (IH Hnd (fst (f s x))) as [E P]. split; [exact E|].
    now apply Permutation_app_head.
  - cbn [List.map] in Hnd. apply List.NoDup_cons_iff in Hnd. destruct Hnd as [Hy _].
    assert (key x <> key y) as N.
    { intros E. apply Hy. left. exact E. }
    destruct (Hcomm s x y N) as (E & Oy & Ox).
    rewrite !forEach_cons. cbn [fst snd]. rewrite E, Oy, Ox. split; [reflexivity|].
    rewrite !app_assoc. apply Permutation_app_tail. apply Permutation_app_comm.
  - destruct (IH1 Hnd s) as [E1 P1].
    assert (List.NoDup (List.map key l')) as Hnd'.
    { eapply Permutation_NoDup; [|exact Hnd]. now apply Permutation_map. }
    destruct (IH2 Hnd' s) as [E2 P2].
    split; [congruence | eapply Permutation_trans; eassumption].
Qed.

(** X20. The order in which a snapshot lists its entries does not matter
    when no outlet is listed twice on a track: two snapshots with the same
    times and the same entries in another order leave the same state and
    send the same messages, though perhaps in another order. *)
Theorem order_of_entries_does_not_matter (firstRun : JsVal) (st : State) (m t : num)
    (cl cl' : list ChargingUser.t) (hl hl' : list OnHoldUser.t) :
  Permutation cl cl' -> Permutation hl hl' ->
  List.NoDup (List.map (fun u => ckey u) cl) ->
  List.NoDup (List.map (fun u => hkey u) hl) ->
  let r := processSnapshot env slackUserIds firstRun st (StationQueueDetail.mk m t cl hl) in
  let r' := processSnapshot env slackUserIds firstRun st (StationQueueDetail.mk m t cl' hl') in
  fst r = fst r' /\ Permutation (snd r) (snd r').
Proof.
  intros Pc Ph Nc Nh. cbv zeta. rewrite !processSnapshot_eq. cbv zeta.
  cbn [fst snd StationQueueDetail.maxChargingTime StationQueueDetail.currTime
       StationQueueDetail.chargingUsers StationQueueDetail.onHoldUsers].
  destruct (forEach_permutation (pcu firstRun m t) (fun u => ckey u)
              (charging_step_commute firstRun m t) cl cl' Pc Nc (chargingUsers st))
    as [E1 P1].
  destruct (forEach_permutation phu (fun u => hkey u) onHold_step_commute
              hl hl' Ph Nh (onHoldUsers st)) as [E2 P2].
  rewrite E1, E2. split; [reflexivity|]. now apply Permutation_app.
Qed.
End SnapshotProperties.

(** *** The scenario again *)

Lemma outlet_absent_from_snapshot_untouched_witness :
  let st := mkState (JStr "token") (Some (num_of_Z 0))
              {[ "2" := Scenario.renamedA ]} ∅ in
  let r := processSnapshot default_env Scenario.ids JUndefined st (Scenario.snapshot 7900) in
  chargingUsers (fst r) !! "2" = chargingUsers st !! "2"
  /\ onHoldUsers (fst r) !! "2" = onHoldUsers st !! "2"
  /\ Forall (fun msg => at_outlet msg <> "2") (snd r).
Proof.
  intros st.
  apply (outlet_absent_from_snapshot_untouched default_env Scenario.ids JUndefined st
           (Scenario.snapshot 7900) "2").
  - intros u [<-|[]] E. vm_compute in E. discriminate E.
  - intros u [<-|[]] E. vm_compute in E. discriminate E.
Defined.

Lemma last_entry_holds_the_outlet_witness :
  let other := ChargingUser.mk (JNum (num_of_Z 7)) (JStr "x") (JStr "CHARGING")
                 (num_of_Z 0) (JNum (num_of_Z 1)) false in
  let d := StationQueueDetail.mk (num_of_Z 7200) (num_of_Z 1000)
             [other; Scenario.userA] [] in
  exists c,
    chargingUsers (fst (processSnapshot default_env Scenario.ids JUndefined initial_state d))
      !! ToPropertyKey (ChargingUser.outlet Scenario.userA) = Some c
    /\ strict_eq (ChargingUser.id c) (ChargingUser.id Scenario.userA) = true.
Proof.
  intros other d.
  apply (last_entry_holds_the_outlet default_env Scenario.ids JUndefined initial_state d
           [other] [] Scenario.userA).
  - reflexivity.
  - intros v [].
  - reflexivity.
Defined.

Lemma unreadable_limit_sends_no_almost_up_witness :
  let data := Message.mk JUndefined (JStr "7900") [Scenario.remoteA] [Scenario.remoteB] in
  Forall (fun msg => is_almost_up msg = false)
         (snd (processSnapshot default_env Scenario.ids JUndefined initial_state
                 (stationQueueDetail data))).
Proof.
  intros data.
  apply (unreadable_limit_sends_no_almost_up default_env Scenario.ids JUndefined
           initial_state (stationQueueDetail data)).
  reflexivity.
Defined.

Lemma almost_up_default_offset_witness :
  let store : gmap string ChargingUser.t := {[ "1" := Scenario.userA ]} in
  Exists (fun msg => is_almost_up msg = true)
         (snd (processChargingUser default_env Scenario.ids JUndefined
                 (Fin 7200) (Fin 7900) store Scenario.userA))
  <-> (1000000 / 1000 + 7200 <= 7900 + 300)%Q.
Proof.
  intros store.
  apply (almost_up_default_offset Scenario.ids JUndefined store Scenario.userA
           Scenario.userA (1000000 / 1000) 7200 7900).
  - reflexivity.
  - reflexivity.
  - reflexivity.
  - exists "WCMTDDDRV". reflexivity.
  - reflexivity.
  - reflexivity.
Defined.

Lemma same_snapshot_again_is_silent_witness :
  let st1 := fst (processSnapshot default_env Scenario.ids JUndefined initial_state
                    (Scenario.snapshot 7900)) in
  processSnapshot default_env Scenario.ids JUndefined st1 (Scenario.snapshot 7900)
  = (st1, []).
Proof.
  apply (same_snapshot_again_is_silent default_env Scenario.ids JUndefined JUndefined
           initial_state (Scenario.snapshot 7900)).
  - repeat constructor. intros [].
  - repeat constructor. intros [].
  - intros u [<-|[]]. reflexivity.
  - intros u [<-|[]]. reflexivity.
Defined.

Lemma order_of_entries_does_not_matter_witness :
  let other := ChargingUser.mk (JNum (num_of_Z 7)) (JStr "x") (JStr "CHARGING")
                 (num_of_Z 0) (JNum (num_of_Z 2)) false in
  let r := processSnapshot default_env Scenario.ids JUndefined initial_state
             (StationQueueDetail.mk (num_of_Z 7200) (num_of_Z 7900)
                [Scenario.userA; other] [Scenario.userB]) in
  let r' := processSnapshot default_env Scenario.ids JUndefined initial_state
              (StationQueueDetail.mk (num_of_Z 7200) (num_of_Z 7900)
                 [other; Scenario.userA] [Scenario.userB]) in
  fst r = fst r' /\ Permutation (snd r) (snd r').
Proof.
  intros other.
  apply (order_of_entries_does_not_matter default_env Scenario.ids JUndefined
           initial_state (num_of_Z 7200) (num_of_Z 7900)
           [Scenario.userA; other] [other; Scenario.userA]
           [Scenario.userB] [Scenario.userB]).
  - apply perm_swap.
  - apply Permutation_refl.
  - constructor; [|repeat constructor; intros []].
    intros [E|[]]. vm_compute in E. discriminate E.
  - repeat constructor. intros [].
Defined.

(** ** The earlier version *)

Lemma forEach_ext {S A : Type} (f g : S -> A -> S * list Sent) (l : list A) :
  (forall s x, f s x = g s x) -> forall s, forEach f s l = forEach g s l.
Proof.
  intros Hfg. induction l as [|x l IH]; intros s; [reflexivity|].
  rewrite !forEach_cons, Hfg, !IH. reflexivity.
Qed.

Section BeforeAndNow.
Context `{Builtins}.
Variable env : ProcessEnv.

(** X21. The refactoring kept the polls: with [CPN_SLACK_USER_IDS] unset,
    an invocation of the current version that passes the gate and has a
    falsy [firstRun] leaves the state, sends the messages and settles as an
    invocation of the earlier version does in the same situation. *)
Theorem polls_as_before (firstRun : JsVal) (st : State) (w : World) :
  truthy firstRun = false ->
  gate env (dateNow w) = Polling ->
  let r := pollChargePoint env (parseSlackUserIds (slackUserIdsString None))
             firstRun st w in
  pollChargePoint_before env st w = (state_after r, sent r, settled r).
Proof.
  intros Hfr Hg. cbv zeta. unfold pollChargePoint, pollChargePoint_before. rewrite Hg.
  destruct (authenticate env st w) as [e|st1]; [reflexivity|].
  destruct (getChargePointStationQueueDetail (queueDetailResponse w)) as [e|d];
    [reflexivity|].
  unfold processSnapshot.
  rewrite (forEach_ext
             (processChargingUser_before env (StationQueueDetail.maxChargingTime d)
                (StationQueueDetail.currTime d))
             (processChargingUser env (parseSlackUserIds (slackUserIdsString None))
                firstRun (StationQueueDetail.maxChargingTime d)
                (StationQueueDetail.currTime d))).
  - rewrite (forEach_ext processOnHoldUser_before
               (processOnHoldUser (parseSlackUserIds (slackUserIdsString None))))
      by reflexivity.
    destruct (forEach (processChargingUser _ _ _ _ _) _ _),
             (forEach (processOnHoldUser _) _ _). reflexivity.
  - intros s x. unfold processChargingUser_before, processChargingUser.
    rewrite Hfr. cbn [negb]. rewrite andb_true_r. reflexivity.
Qed.
End BeforeAndNow.

Lemma polls_as_before_witness :
  let w := Scenario.world Tuesday 10 (inr (JStr "token")) (inr (Scenario.message "7900")) in
  let r := pollChargePoint default_env (parseSlackUserIds (slackUserIdsString None))
             JUndefined initial_state w in
  pollChargePoint_before default_env initial_state w
  = (state_after r, sent r, settled r).
Proof.
  intros w.
  apply (polls_as_before default_env JUndefined initial_state w); reflexivity.
Defined.

(** ** A configured warning offset *)

Section ConfiguredOffset.
Context `{Builtins}.
Variable env : ProcessEnv.
Variable slackUserIds : gmap string string.

(** X22. With [CPN_WARNING_OFFSET] set to a text, line 335 does not add the
    offset to the station's time: for an entry that finds its subscriber
    stored as charging, mapped and not yet notified, the "almost up" message
    is sent exactly when start time plus limit is at most the number that
    the printed time followed by the text reads as. *)
Theorem almost_up_configured_offset (firstRun : JsVal) (text : string)
    (store : gmap string ChargingUser.t) (user c : ChargingUser.t) (s mx cur : Q) :
  CPN_WARNING_OFFSET env = Some text ->
  text <> "" ->
  store !! ToPropertyKey (ChargingUser.outlet user) = Some c ->
  strict_eq (ChargingUser.id c) (ChargingUser.id user) = true ->
  ChargingUser.status c = JStr "CHARGING" ->
  is_Some (slackUserIds !! ToPropertyKey (ChargingUser.name c)) ->
  ChargingUser.exitNotified c = false ->
  ChargingUser.startTime c = Fin s ->
  (Exists (fun msg => is_almost_up msg = true)
          (snd (processChargingUser env slackUserIds firstRun (Fin mx) (Fin cur) store user))
   <-> num_le (Fin (s + mx))
              (StringToNumber (String.append (NumberToString (Fin cur)) text)) = true).
Proof.
  intros Henv Htext Hc Hid Hst Hmap Hflag Hs.
  rewrite processChargingUser_eq. cbn [snd]. rewrite Hc.
  destruct (charging_occupant_same c user Hid) as [-> ->]. cbn [andb app].
  assert (exit_due env slackUserIds (Fin mx) (Fin cur) c
          = num_le (Fin (s + mx))
                   (StringToNumber (String.append (NumberToString (Fin cur)) text))) as ->.
  { unfold exit_due, exitWarningOffset, env_or. rewrite Henv.
    apply String.eqb_neq in Htext. rewrite Htext, Hst, Hflag, Hs.
    rewrite (bool_decide_eq_true_2 _ (plain_get_is_Some _ _ Hmap)). cbn.
    now rewrite andb_true_r. }
  destruct (num_le _ _); split; intros E; try discriminate.
  - reflexivity.
  - constructor. reflexivity.
  - inversion E.
Qed.
End ConfiguredOffset.

Lemma almost_up_configured_offset_witness :
  let store : gmap string ChargingUser.t := {[ "1" := Scenario.userA ]} in
  Exists (fun msg => is_almost_up msg = true)
         (snd (processChargingUser Scenario.env_offset_300 Scenario.ids JUndefined
                 (Fin 7200) (Fin 1000) store Scenario.userA))
  <-> num_le (Fin (1000000 / 1000 + 7200))
             (StringToNumber (String.append (NumberToString (Fin 1000)) "300")) = true.
Proof.
  intros store.
  apply (almost_up_configured_offset Scenario.env_offset_300 Scenario.ids JUndefined "300"
           store Scenario.userA Scenario.userA (1000000 / 1000) 7200 1000).
  - reflexivity.
  - discriminate.
  - reflexivity.
  - reflexivity.
  - reflexivity.
  - exists "WCMTDDDRV". reflexivity.
  - reflexivity.
  - reflexivity.
Defined.
